(** * Template resolution of pkg/oam/util/template.go

    A shallow embedding of [NewTemplate], [LoadTemplate] and
    [ConvertTemplateJSON2Object], and the properties of the template
    resolution engine proved about them.

    Go values are modelled as follows.
    - A pointer that may be nil is an [option]; a struct value is a record,
      kept in a module of the struct's name so that fields keep their Go
      names ([Schematic.CUE], [Template.TemplateStr], ...).
    - A function returning [(T, error)] returns a pair whose second
      component is [option error]; [None] is the nil error.
    - A [map[string]V] is a [gmap string V]; reading a missing key yields
      the zero value of [V].
    - The store queries made through [client.Reader] are recorded in a
      trace, next to the value computed. *)

From stdpp Require Import base option strings list gmap.
From Stdlib Require Import Strings.Byte Strings.Ascii.

Set Warnings "-register-all".
Set Default Proof Using "Type".

(** ** Zero values *)

(** [zero] is the value of [var x T] and of [new(T)]. *)
Class Zero (T : Type) := zero : T.
Global Hint Mode Zero ! : typeclass_instances.

Global Instance string_zero : Zero string := "".
Global Instance option_zero {A} : Zero (option A) := None.
Global Instance gmap_zero {A} : Zero (gmap string A) := (∅ : gmap string A).

(** Reading [m[k]] from a Go map: the zero value when [k] is absent (also
    when the map is nil, which is the empty map here). *)
Definition map_index {V} `{Zero V} (m : gmap string V) (k : string) : V :=
  default zero (m !! k).

(** ** Declarations that live outside this file

    [v1alpha2.Helm], [v1alpha2.WorkloadGVK] and the fields of
    [types.Capability] other than [Name] and [CueTemplate] are declared in
    the [apis] packages.  The functions below copy such values around and
    never look inside them, so they are taken as parameters. *)
Class Declared := {
  Helm : Type;
  WorkloadGVK : Type;
  WorkloadGVK_zero :: Zero WorkloadGVK;
  CapabilityFields : Type;
  CapabilityFields_zero :: Zero CapabilityFields
}.

(** ** package types *)

(** [types.CapType] is a string type.  The switch of [LoadTemplate] names
    three of its constants; [TypeOther] stands for every other value. *)
Inductive CapType :=
| TypeComponentDefinition
| TypeTrait
| TypeScope
| TypeOther (s : string).

(** [types.CapabilityCategory] is a string type whose zero value, the empty
    string, is the plain category.  [TerraformCategory] is the literal the
    annotation ["type"] is compared with; [HelmCategory] is the constant of
    the Helm category. *)
Definition CapabilityCategory := string.
Definition PlainCategory : CapabilityCategory := "".
Definition TerraformCategory : CapabilityCategory := "terraform".
Definition HelmCategory : CapabilityCategory := "helm".

Module Capability.
Record t `{Declared} := {
    Name : string;
    CueTemplate : string;
    Fields : CapabilityFields
  }.

Definition set_Name `{Declared} (c : t) (v : string) : t :=
    {| Name := v; CueTemplate := CueTemplate c; Fields := Fields c |}.
Definition set_CueTemplate `{Declared} (c : t) (v : string) : t :=
    {| Name := Name c; CueTemplate := v; Fields := Fields c |}.
End Capability.

Global Instance Capability_zero `{Declared} : Zero Capability.t :=
  {| Capability.Name := zero; Capability.CueTemplate := zero;
     Capability.Fields := zero |}.

(** ** package runtime *)

Module RawExtension.
  (** [Raw] is a byte slice: [None] is the nil slice. *)
Record t := { Raw : option (list byte) }.

  (** The bytes a nil or non-nil slice holds. *)
Definition bytes (r : t) : list byte := default [] (Raw r).
End RawExtension.

(** ** package v1alpha2 *)

Module CUE.
Record t := { Template : string }.
End CUE.

Module Schematic.
Record t `{Declared} := {
    CUE : option CUE.t;
    HELM : option Helm
  }.
End Schematic.

Module Status.
Record t := {
    CustomStatus : string;
    HealthPolicy : string
  }.
End Status.

(** The three definition kinds.  A field path of the source such as
    [cd.Spec.Workload.Definition] is one projection, named after the path. *)
Module ComponentDefinition.
Record t `{Declared} := {
    Annotations : gmap string string;
    Spec_Workload_Definition : WorkloadGVK;
    Spec_Schematic : option Schematic.t;
    Spec_Status : option Status.t;
    Spec_Extension : option RawExtension.t
  }.
End ComponentDefinition.

Module WorkloadDefinition.
Record t `{Declared} := {
    Annotations : gmap string string;
    Spec_Schematic : option Schematic.t;
    Spec_Status : option Status.t;
    Spec_Extension : option RawExtension.t
  }.
End WorkloadDefinition.

Module TraitDefinition.
Record t `{Declared} := {
    Annotations : gmap string string;
    Spec_Schematic : option Schematic.t;
    Spec_Status : option Status.t;
    Spec_Extension : option RawExtension.t
  }.
End TraitDefinition.

Global Instance ComponentDefinition_zero `{Declared} : Zero ComponentDefinition.t :=
  {| ComponentDefinition.Annotations := zero;
     ComponentDefinition.Spec_Workload_Definition := zero;
     ComponentDefinition.Spec_Schematic := zero;
     ComponentDefinition.Spec_Status := zero;
     ComponentDefinition.Spec_Extension := zero |}.

Global Instance WorkloadDefinition_zero `{Declared} : Zero WorkloadDefinition.t :=
  {| WorkloadDefinition.Annotations := zero;
     WorkloadDefinition.Spec_Schematic := zero;
     WorkloadDefinition.Spec_Status := zero;
     WorkloadDefinition.Spec_Extension := zero |}.

Global Instance TraitDefinition_zero `{Declared} : Zero TraitDefinition.t :=
  {| TraitDefinition.Annotations := zero;
     TraitDefinition.Spec_Schematic := zero;
     TraitDefinition.Spec_Status := zero;
     TraitDefinition.Spec_Extension := zero |}.

(** ** Errors *)

(** An argument of a format string. *)
Inductive fmt_arg :=
| ArgString (s : string)
| ArgCapType (kd : CapType).

(** The error values that reach this file.  A formatted message is kept as
    its format string and its arguments. *)
Inductive error :=
| StatusError (reason : string) (message : string)
    (* an API status error of the store, k8s.io/apimachinery *)
| SyntaxError (message : string)
    (* encoding/json: the input is not JSON *)
| UnmarshalTypeError (value : string) (type : string)
    (* encoding/json: a JSON value does not fit the Go type *)
| OtherError (message : string)
    (* any other error of a collaborator: a cancelled context, ... *)
| errors_New (message : string)
| fmt_Errorf (format : string) (args : list fmt_arg)
| errors_WithMessagef (err : error) (format : string) (args : list fmt_arg)
| errors_Wrapf (err : error) (format : string) (args : list fmt_arg).

Definition StatusReasonNotFound : string := "NotFound".

(** [kerrors.IsNotFound]: the error is an API status whose reason is
    NotFound.  The nil error is not. *)
Definition IsNotFound (err : option error) : bool :=
  match err with
  | Some (StatusError reason _) => String.eqb reason StatusReasonNotFound
  | _ => false
  end.

(** ** encoding/json *)

Module json.
  (** What [json.Unmarshal] stores in an [interface{}]. *)
Inductive value :=
  | Null
  | Bool (b : bool)
  | Number (lexeme : string)
  | String (s : string)
  | Array (elems : list value)
  | Object (members : gmap string value).

  (** The type assertion [v.(string)]. *)
Definition as_string (v : value) : option string :=
    match v with
    | String s => Some s
    | _ => None
    end.
End json.

(** The two uses of [json.Unmarshal] in this file.  Decoding itself belongs
    to encoding/json, so both are parameters.
    - [Unmarshal_map data] is [json.Unmarshal(data, &m)] for a fresh, empty
      [m : map[string]interface{}]: the error, or the map afterwards.
    - [Unmarshal_Capability data t] is [json.Unmarshal(data, &t)]: the
      struct afterwards (which a failing call may have written to) and the
      error. *)
Class Unmarshal `{Declared} := {
  Unmarshal_map : list byte → error + gmap string json.value;
  Unmarshal_Capability : list byte → Capability.t → Capability.t * option error
}.

(** ** The definition store *)

Inductive Resource :=
| ComponentDefinitionResource
| WorkloadDefinitionResource
| TraitDefinitionResource.

(** One read-only query of the store. *)
Record Query := { resource : Resource; name : string }.

(** A computation that queries the store: its value and the queries made,
    in order. *)
Definition Traced (A : Type) : Type := A * list Query.

Definition ret {A} (a : A) : Traced A := (a, []).

Definition bind {A B} (m : Traced A) (k : A → Traced B) : Traced B :=
  let r := k m.1 in (r.1, m.2 ++ r.2).

Definition tell (q : Query) : Traced unit := (tt, [q]).

Notation "'let*' x ':=' m 'in' k" := (bind m (λ x, k))
  (at level 10, x pattern, m at level 100, k at level 200,
   format "'[v' 'let*'  x  ':='  m  'in' '/' k ']'").

(** [client.Reader]: what a [Get] of each kind of definition answers for a
    name. *)
Record Reader `{Declared} := {
  Get_ComponentDefinition : string → error + ComponentDefinition.t;
  Get_WorkloadDefinition : string → error + WorkloadDefinition.t;
  Get_TraitDefinition : string → error + TraitDefinition.t
}.

(** Modelled from the spec: [GetDefinition], which is in another file of
    the package.  It is the store query
    [GetDefinition(kind, name) → DefinitionResource | NotFoundError | OtherError]:
    one query; on success the object passed in holds the stored definition,
    on failure it is left as it was and the error is returned. *)
Definition GetDefinition {D} (res : Resource) (get : string → error + D)
    (definition : D) (definitionName : string) : Traced (D * option error) :=
  bind (tell {| resource := res; name := definitionName |}) (λ _,
  ret (match get definitionName with
       | inr stored => (stored, None)
       | inl err => (definition, Some err)
       end)).

(** ** package util: template.go *)

(** The type [v1alpha2.Helm], under a name the field [Helm] of [Template]
    does not hide. *)
Abbreviation v1alpha2_Helm := Helm (only parsing).

Module Template.
Record t `{Declared} := {
  TemplateStr : string;
  Health : string;
  CustomStatus : string;
  CapabilityCategory : CapabilityCategory;
  Reference : WorkloadGVK;
  Helm : option v1alpha2_Helm
}.

(** Assignments to one field of a [Template]. *)
Definition set_TemplateStr `{Declared} (tmp : t) (v : string) : t :=
  {| TemplateStr := v; Health := Health tmp; CustomStatus := CustomStatus tmp;
     CapabilityCategory := CapabilityCategory tmp; Reference := Reference tmp;
     Helm := Helm tmp |}.
Definition set_Health `{Declared} (tmp : t) (v : string) : t :=
  {| TemplateStr := TemplateStr tmp; Health := v; CustomStatus := CustomStatus tmp;
     CapabilityCategory := CapabilityCategory tmp; Reference := Reference tmp;
     Helm := Helm tmp |}.
Definition set_CustomStatus `{Declared} (tmp : t) (v : string) : t :=
  {| TemplateStr := TemplateStr tmp; Health := Health tmp; CustomStatus := v;
     CapabilityCategory := CapabilityCategory tmp; Reference := Reference tmp;
     Helm := Helm tmp |}.
Definition set_CapabilityCategory `{Declared} (tmp : t) (v : string) : t :=
  {| TemplateStr := TemplateStr tmp; Health := Health tmp;
     CustomStatus := CustomStatus tmp; CapabilityCategory := v;
     Reference := Reference tmp; Helm := Helm tmp |}.
Definition set_Reference `{Declared} (tmp : t) (v : WorkloadGVK) : t :=
  {| TemplateStr := TemplateStr tmp; Health := Health tmp;
     CustomStatus := CustomStatus tmp;
     CapabilityCategory := CapabilityCategory tmp; Reference := v;
     Helm := Helm tmp |}.
Definition set_Helm `{Declared} (tmp : t) (v : option v1alpha2_Helm) : t :=
  {| TemplateStr := TemplateStr tmp; Health := Health tmp;
     CustomStatus := CustomStatus tmp;
     CapabilityCategory := CapabilityCategory tmp; Reference := Reference tmp;
     Helm := v |}.
End Template.

Global Instance Template_zero `{Declared} : Zero Template.t :=
  {| Template.TemplateStr := zero; Template.Health := zero;
     Template.CustomStatus := zero; Template.CapabilityCategory := zero;
     Template.Reference := zero; Template.Helm := zero |}.

Section util.
Context `{Declared} `{!Unmarshal}.

(** [NewTemplate]: the template of a definition's schematic, status and
    extension.  The result is the pair the Go function returns. *)
Definition NewTemplate (schematic : option Schematic.t) (status : option Status.t)
    (raw : option RawExtension.t) : option Template.t * option error :=
  let tmp : Template.t := zero in
  let tmp :=
    match status with
    | Some status =>
        let tmp := Template.set_CustomStatus tmp (Status.CustomStatus status) in
        Template.set_Health tmp (Status.HealthPolicy status)
    | None => tmp
    end in
  let after_schematic (tmp : Template.t) : option Template.t * option error :=
    let extension : gmap string json.value := ∅ in
    match String.eqb (Template.TemplateStr tmp) "", raw with
    | true, Some raw =>
        match Unmarshal_map (RawExtension.bytes raw) with
        | inl err => (None, Some err)
        | inr extension =>
            match extension !! "template" with
            | Some extTemplate =>
                match json.as_string extTemplate with
                | Some tmpStr => (Some (Template.set_TemplateStr tmp tmpStr), None)
                | None => (Some tmp, None)
                end
            | None => (Some tmp, None)
            end
        end
    | _, _ => (Some tmp, None)
    end in
  match schematic with
  | Some schematic =>
      match Schematic.CUE schematic with
      | Some cue =>
          (* CUE module has highest priority: no other schematic type is checked *)
          (Some (Template.set_TemplateStr tmp (CUE.Template cue)), None)
      | None =>
          match Schematic.HELM schematic with
          | Some helm =>
              let tmp := Template.set_Helm tmp (Some helm) in
              (Some (Template.set_CapabilityCategory tmp HelmCategory), None)
          | None => after_schematic tmp
          end
      end
  | None => after_schematic tmp
  end.

(** [LoadTemplate]: the template of the definition [key] of kind [kd]. *)
Definition LoadTemplate (cli : Reader) (key : string) (kd : CapType)
    : Traced (option Template.t * option error) :=
  match kd with
  | TypeComponentDefinition =>
      let cd : ComponentDefinition.t := zero in
      let* (cd, err) := GetDefinition ComponentDefinitionResource
                           (Get_ComponentDefinition cli) cd key in
      let* located :=
        match IsNotFound err with
        | true =>
            (* the ComponentDefinition is not found: the WorkloadDefinition
               of the same name is looked up *)
            let wd : WorkloadDefinition.t := zero in
            let* (wd, err) := GetDefinition WorkloadDefinitionResource
                                 (Get_WorkloadDefinition cli) wd key in
            match err with
            | Some err =>
                ret (inl (errors_WithMessagef err
                            "LoadTemplate from WorkloadDefinition [%s] " [ArgString key]))
            | None =>
                ret (inr (WorkloadDefinition.Spec_Schematic wd,
                          WorkloadDefinition.Spec_Status wd,
                          WorkloadDefinition.Spec_Extension wd))
            end
        | false =>
            match err with
            | Some err =>
                ret (inl (errors_WithMessagef err
                            "LoadTemplate from ComponentDefinition [%s] " [ArgString key]))
            | None =>
                ret (inr (ComponentDefinition.Spec_Schematic cd,
                          ComponentDefinition.Spec_Status cd,
                          ComponentDefinition.Spec_Extension cd))
            end
        end in
      match located with
      | inl err => ret (None, Some err)
      | inr (schematic, status, extension) =>
          let '(tmpl, err) := NewTemplate schematic status extension in
          match err with
          | Some err =>
              ret (None, Some (errors_WithMessagef err "LoadTemplate [%s] " [ArgString key]))
          | None =>
              match tmpl with
              | None => ret (None, Some (errors_New "no template found in definition"))
              | Some tmpl =>
                  let tmpl :=
                    Template.set_Reference tmpl
                      (ComponentDefinition.Spec_Workload_Definition cd) in
                  let tmpl :=
                    if String.eqb (map_index (ComponentDefinition.Annotations cd) "type")
                                  TerraformCategory
                    then Template.set_CapabilityCategory tmpl TerraformCategory
                    else tmpl in
                  ret (Some tmpl, None)
              end
          end
      end
  | TypeTrait =>
      let td : TraitDefinition.t := zero in
      let* (td, err) := GetDefinition TraitDefinitionResource
                           (Get_TraitDefinition cli) td key in
      match err with
      | Some err =>
          ret (None, Some (errors_WithMessagef err "LoadTemplate [%s] " [ArgString key]))
      | None =>
          let capabilityCategory : CapabilityCategory := zero in
          let capabilityCategory :=
            if String.eqb (map_index (TraitDefinition.Annotations td) "type")
                          TerraformCategory
            then TerraformCategory else capabilityCategory in
          let '(tmpl, err) :=
            NewTemplate (TraitDefinition.Spec_Schematic td)
              (TraitDefinition.Spec_Status td) (TraitDefinition.Spec_Extension td) in
          match err with
          | Some err =>
              ret (None, Some (errors_WithMessagef err "LoadTemplate [%s] " [ArgString key]))
          | None =>
              match tmpl with
              | None => ret (None, Some (errors_New "no template found in definition"))
              | Some tmpl =>
                  let tmpl := Template.set_CapabilityCategory tmpl capabilityCategory in
                  ret (Some tmpl, None)
              end
          end
      end
  | _ =>
      (* TypeScope: not supported yet; so is every other kind *)
      ret (None, Some (fmt_Errorf "kind(%s) of %s not supported"
                         [ArgCapType kd; ArgString key]))
  end.

(** [ConvertTemplateJSON2Object]: [spec.extension] as a capability.  [None]
    is the run-time panic of reading through a nil template. *)
Definition ConvertTemplateJSON2Object (capabilityName : string)
    (in_ : option RawExtension.t) (schematic : option Schematic.t)
    : option (Capability.t * option error) :=
  let t : Capability.t := zero in
  let t := Capability.set_Name t capabilityName in
  let '(capTemplate, err) := NewTemplate schematic None in_ in
  match err with
  | Some err' => Some (t, Some (errors_Wrapf err' "parse cue template" []))
  | None =>
      let '(t, err') :=
        match in_ with
        | Some r =>
            match RawExtension.Raw r with
            | Some data => Unmarshal_Capability data t
            | None => (t, None)
            end
        | None => (t, None)
        end in
      match err' with
      | Some err' => Some (t, Some (errors_Wrapf err' "parse extension fail" []))
      | None =>
          match capTemplate with
          | None => None
          | Some capTemplate =>
              let t :=
                if negb (String.eqb (Template.TemplateStr capTemplate) "")
                then Capability.set_CueTemplate t (Template.TemplateStr capTemplate)
                else t in
              Some (t, err)
          end
      end
  end.

End util.

(** ** A decoder to run the functions with

    The properties below hold for every instance of [Unmarshal].  To
    evaluate the functions on concrete definitions, this section gives one:
    a decoder of JSON texts.  It reads the JSON grammar except the escape
    [\uXXXX], keeps a number as its lexeme, and lets the last of two equal
    keys win, as encoding/json does. *)
Module decoder.

(** The double quote. *)
Definition dquote : ascii := "034"%char.

Definition is_space (c : ascii) : bool :=
  Ascii.eqb c " " || Ascii.eqb c "009" || Ascii.eqb c "010" || Ascii.eqb c "013".

Definition is_digit (c : ascii) : bool :=
  (48 <=? nat_of_ascii c)%nat && (nat_of_ascii c <=? 57)%nat.

Fixpoint skip_space (s : list ascii) : list ascii :=
  match s with
  | c :: r => if is_space c then skip_space r else s
  | [] => []
  end.

(** [strip lit s]: [s] without its prefix [lit]. *)
Fixpoint strip (lit s : list ascii) : option (list ascii) :=
  match lit, s with
  | [], _ => Some s
  | a :: lit, b :: s => if Ascii.eqb a b then strip lit s else None
  | _ :: _, [] => None
  end.

Definition unescape (c : ascii) : option ascii :=
  if Ascii.eqb c dquote then Some dquote
  else if Ascii.eqb c "\" then Some "\"%char
  else if Ascii.eqb c "/" then Some "/"%char
  else if Ascii.eqb c "b" then Some "008"%char
  else if Ascii.eqb c "f" then Some "012"%char
  else if Ascii.eqb c "n" then Some "010"%char
  else if Ascii.eqb c "r" then Some "013"%char
  else if Ascii.eqb c "t" then Some "009"%char
  else None.

(** The string literal whose opening quote has been read. *)
Fixpoint scan_string (s : list ascii) : option (string * list ascii) :=
  match s with
  | [] => None
  | c :: r =>
      if Ascii.eqb c dquote then Some (EmptyString, r)
      else if Ascii.eqb c "\" then
        match r with
        | e :: r' =>
            match unescape e, scan_string r' with
            | Some c', Some (str, rest) => Some (String.String c' str, rest)
            | _, _ => None
            end
        | [] => None
        end
      else if (nat_of_ascii c <? 32)%nat then None
      else
        match scan_string r with
        | Some (str, rest) => Some (String.String c str, rest)
        | None => None
        end
  end.

Fixpoint scan_digits (s : list ascii) : list ascii * list ascii :=
  match s with
  | c :: r =>
      if is_digit c then let '(ds, rest) := scan_digits r in (c :: ds, rest)
      else ([], s)
  | [] => ([], [])
  end.

(** A number: [-]? digits ([.] digits)? ([eE] [+-]? digits)?, the integer
    part without a leading zero. *)
Definition scan_number (s : list ascii) : option (list ascii * list ascii) :=
  let '(sign, s) :=
    match s with
    | c :: r => if Ascii.eqb c "-" then ([c], r) else ([], s)
    | [] => ([], s)
    end in
  let '(int, s) := scan_digits s in
  match int with
  | [] => None
  | d :: ds =>
      if Ascii.eqb d "0" && negb (bool_decide (ds = [])) then None
      else
        let frac :=
          match s with
          | c :: r =>
              if Ascii.eqb c "." then
                let '(fs, rest) := scan_digits r in
                if bool_decide (fs = []) then None else Some (c :: fs, rest)
              else Some ([], s)
          | [] => Some ([], s)
          end in
        '(frac, s) ← frac;
        let exp :=
          match s with
          | c :: r =>
              if Ascii.eqb c "e" || Ascii.eqb c "E" then
                let '(sg, r) :=
                  match r with
                  | c' :: r' =>
                      if Ascii.eqb c' "+" || Ascii.eqb c' "-" then ([c'], r') else ([], r)
                  | [] => ([], r)
                  end in
                let '(es, rest) := scan_digits r in
                if bool_decide (es = []) then None else Some (c :: sg ++ es, rest)
              else Some ([], s)
          | [] => Some ([], s)
          end in
        '(exp, s) ← exp;
        Some (sign ++ int ++ frac ++ exp, s)
  end.

Definition object_of (members : list (string * json.value)) : json.value :=
  json.Object (foldl (λ m kv, <[kv.1 := kv.2]> m) ∅ members).

(** One JSON value at the head of [s], and the text after it. *)
Fixpoint parse_value (fuel : nat) (s : list ascii) : option (json.value * list ascii) :=
  match fuel with
  | O => None
  | S fuel =>
      match skip_space s with
      | [] => None
      | c :: r =>
          if Ascii.eqb c "{" then
            match skip_space r with
            | c' :: r' =>
                if Ascii.eqb c' "}" then Some (object_of [], r')
                else '(ms, rest) ← parse_members fuel (c' :: r'); Some (object_of ms, rest)
            | [] => None
            end
          else if Ascii.eqb c "[" then
            match skip_space r with
            | c' :: r' =>
                if Ascii.eqb c' "]" then Some (json.Array [], r')
                else '(vs, rest) ← parse_elements fuel (c' :: r'); Some (json.Array vs, rest)
            | [] => None
            end
          else if Ascii.eqb c dquote then
            '(str, rest) ← scan_string r; Some (json.String str, rest)
          else if Ascii.eqb c "t" then
            rest ← strip (String.list_ascii_of_string "rue") r; Some (json.Bool true, rest)
          else if Ascii.eqb c "f" then
            rest ← strip (String.list_ascii_of_string "alse") r; Some (json.Bool false, rest)
          else if Ascii.eqb c "n" then
            rest ← strip (String.list_ascii_of_string "ull") r; Some (json.Null, rest)
          else
            '(lexeme, rest) ← scan_number (c :: r);
            Some (json.Number (String.string_of_list_ascii lexeme), rest)
      end
  end
with parse_members (fuel : nat) (s : list ascii)
    : option (list (string * json.value) * list ascii) :=
  match fuel with
  | O => None
  | S fuel =>
      match skip_space s with
      | c :: r =>
          if Ascii.eqb c dquote then
            '(k, r) ← scan_string r;
            match skip_space r with
            | c :: r =>
                if Ascii.eqb c ":" then
                  '(v, r) ← parse_value fuel r;
                  match skip_space r with
                  | c :: r =>
                      if Ascii.eqb c "," then
                        '(ms, rest) ← parse_members fuel r; Some ((k, v) :: ms, rest)
                      else if Ascii.eqb c "}" then Some ([(k, v)], r)
                      else None
                  | [] => None
                  end
                else None
            | [] => None
            end
          else None
      | [] => None
      end
  end
with parse_elements (fuel : nat) (s : list ascii)
    : option (list json.value * list ascii) :=
  match fuel with
  | O => None
  | S fuel =>
      '(v, r) ← parse_value fuel s;
      match skip_space r with
      | c :: r =>
          if Ascii.eqb c "," then
            '(vs, rest) ← parse_elements fuel r; Some (v :: vs, rest)
          else if Ascii.eqb c "]" then Some ([v], r)
          else None
      | [] => None
      end
  end.

(** The value a whole text denotes, or the syntax error. *)
Definition decode (data : list byte) : error + json.value :=
  let s := map ascii_of_byte data in
  match parse_value (S (length s)) s with
  | Some (v, rest) =>
      match skip_space rest with
      | [] => inr v
      | _ :: _ => inl (SyntaxError "invalid character after top-level value")
      end
  | None => inl (SyntaxError "invalid JSON input")
  end.

(** The JSON kind of a value, as the type errors of encoding/json name it. *)
Definition kind_of (v : json.value) : string :=
  match v with
  | json.Null => "null"
  | json.Bool _ => "bool"
  | json.Number _ => "number"
  | json.String _ => "string"
  | json.Array _ => "array"
  | json.Object _ => "object"
  end.

(** Decoding onto an empty [map[string]interface{}]: an object fills the
    map, [null] leaves it empty, any other value is a type error. *)
Definition unmarshal_map (data : list byte) : error + gmap string json.value :=
  match decode data with
  | inl err => inl err
  | inr (json.Object members) => inr members
  | inr json.Null => inr ∅
  | inr v => inl (UnmarshalTypeError (kind_of v) "map[string]interface {}")
  end.

End decoder.

(** ** A store to run the functions with *)

Module example.

(** A Helm reference and a workload GVK, to instantiate [Declared]. *)
Record HelmChart := { Release : string; Repository : string }.
Record GVK := { APIVersion : string; Kind : string }.

(** The capability of this instance has no field beyond its name and its
    CUE template other than the members of the blob it was decoded from. *)
Definition declared : Declared :=
  {| Helm := HelmChart;
     WorkloadGVK := GVK;
     WorkloadGVK_zero := {| APIVersion := ""; Kind := "" |};
     CapabilityFields := gmap string json.value;
     CapabilityFields_zero := (∅ : gmap string json.value) |}.

#[local] Existing Instance declared.

(** A string field of a struct read from the member [k] of an object:
    absent or [null] leaves the field as it is, a string sets it, any other
    value is a type error. *)
Definition string_field (members : gmap string json.value) (k : string)
    (field : string) : string * option error :=
  match members !! k with
  | None | Some json.Null => (field, None)
  | Some (json.String s) => (s, None)
  | Some v => (field, Some (UnmarshalTypeError (decoder.kind_of v) "string"))
  end.

(** Decoding onto a capability: the members [name] and [template] are
    the fields [Name] and [CueTemplate], the others are kept in [Fields].  A
    text that is not JSON leaves the capability untouched. *)
Definition unmarshal_Capability (data : list byte) (t : @Capability.t declared)
    : @Capability.t declared * option error :=
  match decoder.decode data with
  | inl err => (t, Some err)
  | inr (json.Object members) =>
      let fields : gmap string json.value := Capability.Fields t in
      let fields : gmap string json.value :=
        delete "name" (delete "template" members) ∪ fields in
      let '(name, err1) := string_field members "name" (Capability.Name t) in
      let '(template, err2) :=
        string_field members "template" (Capability.CueTemplate t) in
      ({| Capability.Name := name;
          Capability.CueTemplate := template;
          Capability.Fields := fields |},
       match err1 with Some _ => err1 | None => err2 end)
  | inr json.Null => (t, None)
  | inr v => (t, Some (UnmarshalTypeError (decoder.kind_of v) "types.Capability"))
  end.

Definition unmarshal : @Unmarshal declared :=
  {| Unmarshal_map := decoder.unmarshal_map;
     Unmarshal_Capability := unmarshal_Capability |}.

(** What the store answers when it holds no object of that name. *)
Definition not_found (name : string) : error :=
  StatusError StatusReasonNotFound name.

Definition lookup_or_not_found {D} (m : gmap string D) (name : string) : error + D :=
  match m !! name with
  | Some d => inr d
  | None => inl (not_found name)
  end.

(** A reader over three tables of definitions. *)
Definition reader
    (cds : gmap string (@ComponentDefinition.t declared))
    (wds : gmap string (@WorkloadDefinition.t declared))
    (tds : gmap string (@TraitDefinition.t declared)) : @Reader declared :=
  {| Get_ComponentDefinition := lookup_or_not_found cds;
     Get_WorkloadDefinition := lookup_or_not_found wds;
     Get_TraitDefinition := lookup_or_not_found tds |}.

Definition raw (text : string) : option RawExtension.t :=
  Some {| RawExtension.Raw := Some (String.list_byte_of_string text) |}.

(** The text of a JSON object whose members are strings without escapes. *)
Definition quoted (s : string) : string :=
  String.String decoder.dquote (s +:+ String.String decoder.dquote EmptyString).

Definition object_text (members : list (string * string)) : string :=
  "{" +:+ String.concat "," (map (λ kv, quoted kv.1 +:+ ":" +:+ quoted kv.2) members)
      +:+ "}".

Definition cue (body : string) : option CUE.t := Some {| CUE.Template := body |}.

Definition chart : HelmChart := {| Release := "redis"; Repository := "bitnami" |}.

Definition deployment : GVK := {| APIVersion := "apps/v1"; Kind := "Deployment" |}.

(** Schematics: a CUE template alone, a CUE template next to a Helm
    reference, a Helm reference alone. *)
Definition cue_only (body : string) : @Schematic.t declared :=
  {| Schematic.CUE := cue body; Schematic.HELM := None |}.

Definition cue_and_chart : @Schematic.t declared :=
  {| Schematic.CUE := cue "output: {}"; Schematic.HELM := Some chart |}.

Definition chart_only : @Schematic.t declared :=
  {| Schematic.CUE := None; Schematic.HELM := Some chart |}.

(** ComponentDefinitions: [worker] has a CUE template and is marked as
    Terraform; [both] has a CUE template, a Helm reference, and an extension
    that is not JSON. *)
Definition worker : @ComponentDefinition.t declared :=
  {| ComponentDefinition.Annotations := {[ "type" := "terraform" ]};
     ComponentDefinition.Spec_Workload_Definition := deployment;
     ComponentDefinition.Spec_Schematic := Some (cue_only "output: {}");
     ComponentDefinition.Spec_Status := None;
     ComponentDefinition.Spec_Extension := None |}.

Definition both : @ComponentDefinition.t declared :=
  {| ComponentDefinition.Annotations := ∅;
     ComponentDefinition.Spec_Workload_Definition := deployment;
     ComponentDefinition.Spec_Schematic := Some cue_and_chart;
     ComponentDefinition.Spec_Status :=
       Some {| Status.CustomStatus := "message: ready";
               Status.HealthPolicy := "isHealth: true" |};
     ComponentDefinition.Spec_Extension := raw "{" |}.

(** WorkloadDefinitions: [legacy] has a CUE template and is marked as
    Terraform. *)
Definition legacy : @WorkloadDefinition.t declared :=
  {| WorkloadDefinition.Annotations := {[ "type" := "terraform" ]};
     WorkloadDefinition.Spec_Schematic := Some (cue_only "output: {kind: Job}");
     WorkloadDefinition.Spec_Status := None;
     WorkloadDefinition.Spec_Extension := None |}.

(** TraitDefinitions: [scaler] has its template in the extension, [bare]
    has no template of any form, [release] has a Helm reference only,
    [broken] has an extension that is not JSON. *)
Definition scaler : @TraitDefinition.t declared :=
  {| TraitDefinition.Annotations := ∅;
     TraitDefinition.Spec_Schematic := None;
     TraitDefinition.Spec_Status := None;
     TraitDefinition.Spec_Extension := raw (object_text [("template", "patch: {}")]) |}.

Definition bare : @TraitDefinition.t declared :=
  {| TraitDefinition.Annotations := ∅;
     TraitDefinition.Spec_Schematic := None;
     TraitDefinition.Spec_Status := None;
     TraitDefinition.Spec_Extension := None |}.

Definition release : @TraitDefinition.t declared :=
  {| TraitDefinition.Annotations := ∅;
     TraitDefinition.Spec_Schematic := Some chart_only;
     TraitDefinition.Spec_Status := None;
     TraitDefinition.Spec_Extension := None |}.

Definition broken : @TraitDefinition.t declared :=
  {| TraitDefinition.Annotations := ∅;
     TraitDefinition.Spec_Schematic := None;
     TraitDefinition.Spec_Status :=
       Some {| Status.CustomStatus := "message: ready";
               Status.HealthPolicy := "isHealth: true" |};
     TraitDefinition.Spec_Extension := raw "{" |}.

(** An extension blob with a template of its own, and the capability named
    "worker" once the blob is decoded onto it. *)
Definition blob : option RawExtension.t :=
  raw (object_text [("name", "renamed"); ("template", "legacy: {}"); ("center", "hub")]).

Definition decoded_blob : @Capability.t declared :=
  {| Capability.Name := "renamed";
     Capability.CueTemplate := "legacy: {}";
     Capability.Fields := ({[ "center" := json.String "hub" ]} : gmap string json.value) |}.

Definition cli : @Reader declared :=
  reader
    {[ "worker" := worker; "both" := both ]}
    {[ "legacy" := legacy ]}
    {[ "scaler" := scaler; "bare" := bare; "release" := release; "broken" := broken ]}.

End example.

(** ** Vocabulary of the statements *)

Section vocabulary.
Context `{Declared} `{!Unmarshal}.

(** The schematic is nil, or has neither the CUE nor the Helm variant. *)
Definition no_variant (schematic : option Schematic.t) : Prop :=
  match schematic with
  | Some schematic => Schematic.CUE schematic = None ∧ Schematic.HELM schematic = None
  | None => True
  end.

(** The template [NewTemplate] starts from, once the status is copied. *)
Definition initial (status : option Status.t) : Template.t :=
  match status with
  | Some status =>
      Template.set_Health
        (Template.set_CustomStatus zero (Status.CustomStatus status))
        (Status.HealthPolicy status)
  | None => zero
  end.

(** The template string of a decoded extension: the member [template],
    when it is a string. *)
Definition extension_template (extension : gmap string json.value) : option string :=
  extension !! "template" ≫= json.as_string.

Definition query (res : Resource) (key : string) : Query :=
  {| resource := res; name := key |}.

(** [Locates cli key kd schematic status extension]: resolving [key] of
    kind [kd] against [cli] finds a definition, and these are the three
    fields [LoadTemplate] hands to [NewTemplate]. *)
Inductive Locates (cli : Reader) (key : string)
    : CapType → option Schematic.t → option Status.t → option RawExtension.t → Prop :=
| Locates_component cd :
    Get_ComponentDefinition cli key = inr cd →
    Locates cli key TypeComponentDefinition
      (ComponentDefinition.Spec_Schematic cd) (ComponentDefinition.Spec_Status cd)
      (ComponentDefinition.Spec_Extension cd)
| Locates_workload err wd :
    Get_ComponentDefinition cli key = inl err →
    IsNotFound (Some err) = true →
    Get_WorkloadDefinition cli key = inr wd →
    Locates cli key TypeComponentDefinition
      (WorkloadDefinition.Spec_Schematic wd) (WorkloadDefinition.Spec_Status wd)
      (WorkloadDefinition.Spec_Extension wd)
| Locates_trait td :
    Get_TraitDefinition cli key = inr td →
    Locates cli key TypeTrait
      (TraitDefinition.Spec_Schematic td) (TraitDefinition.Spec_Status td)
      (TraitDefinition.Spec_Extension td).

(** The category a TraitDefinition's annotations give. *)
Definition trait_category (td : TraitDefinition.t) : CapabilityCategory :=
  if String.eqb (map_index (TraitDefinition.Annotations td) "type") TerraformCategory
  then TerraformCategory else PlainCategory.

(** The full-descriptor unmarshal step of [ConvertTemplateJSON2Object]: it
    is skipped when the extension, or its byte slice, is nil. *)
Definition descriptor_unmarshal (in_ : option RawExtension.t) (t : Capability.t)
    : Capability.t * option error :=
  match in_ ≫= RawExtension.Raw with
  | Some data => Unmarshal_Capability data t
  | None => (t, None)
  end.

End vocabulary.

(** ** More of the vocabulary, and more definitions to run the functions with *)

Section variants.
Context `{Declared}.

(** The schematic has the CUE variant or the Helm variant. *)
Definition has_variant (schematic : Schematic.t) : Prop :=
  is_Some (Schematic.CUE schematic) ∨ is_Some (Schematic.HELM schematic).

(** The three messages [LoadTemplate] wraps a cause with. *)
Definition wrapping_formats : list string :=
  [ "LoadTemplate from WorkloadDefinition [%s] ";
    "LoadTemplate from ComponentDefinition [%s] ";
    "LoadTemplate [%s] " ].

End variants.

Module fixtures.
Import example.
#[local] Existing Instance declared.
#[local] Existing Instance unmarshal.

(** A ComponentDefinition with a Helm reference that is marked as
    Terraform, and a TraitDefinition with a CUE template that is marked as
    Terraform. *)
Definition terraform_chart : @ComponentDefinition.t declared :=
  {| ComponentDefinition.Annotations := {[ "type" := "terraform" ]};
     ComponentDefinition.Spec_Workload_Definition := deployment;
     ComponentDefinition.Spec_Schematic := Some chart_only;
     ComponentDefinition.Spec_Status := None;
     ComponentDefinition.Spec_Extension := None |}.

Definition terraform_trait : @TraitDefinition.t declared :=
  {| TraitDefinition.Annotations := {[ "type" := "terraform" ]};
     TraitDefinition.Spec_Schematic := Some (cue_only "patch: {}");
     TraitDefinition.Spec_Status :=
       Some {| Status.CustomStatus := "message: scaled";
               Status.HealthPolicy := "isHealth: true" |};
     TraitDefinition.Spec_Extension := None |}.

(** A ComponentDefinition whose Helm reference is not overridden. *)
Definition plain_chart : @ComponentDefinition.t declared :=
  {| ComponentDefinition.Annotations := {[ "type" := "helm-release" ]};
     ComponentDefinition.Spec_Workload_Definition := deployment;
     ComponentDefinition.Spec_Schematic := Some chart_only;
     ComponentDefinition.Spec_Status := None;
     ComponentDefinition.Spec_Extension := raw "{" |}.

Definition store : @Reader declared :=
  reader
    {[ "tf-chart" := terraform_chart; "chart" := plain_chart ]}
    ∅
    {[ "tf-trait" := terraform_trait; "scaler" := scaler ]}.

(** A store no query of which gets through. *)
Definition deadline : error := OtherError "context deadline exceeded".

Definition unreachable : @Reader declared :=
  {| Get_ComponentDefinition := λ _, inl deadline;
     Get_WorkloadDefinition := λ _, inl deadline;
     Get_TraitDefinition := λ _, inl deadline |}.

(** Extensions: an object whose member [template] is a number, and an
    extension whose byte slice is nil. *)
Definition numeric_template : RawExtension.t :=
  {| RawExtension.Raw := Some (String.list_byte_of_string
       ("{" +:+ quoted "template" +:+ ":42}")) |}.

Definition nil_raw : RawExtension.t := {| RawExtension.Raw := None |}.

Definition patch_extension : RawExtension.t :=
  {| RawExtension.Raw := Some (String.list_byte_of_string
       (object_text [("template", "patch: {}")])) |}.

Definition broken_extension : RawExtension.t :=
  {| RawExtension.Raw := Some (String.list_byte_of_string "{") |}.

End fixtures.

(** * Properties *)

Section NewTemplate_facts.
Context `{Declared} `{!Unmarshal}.

Implicit Types (schematic : option Schematic.t) (status : option Status.t).
Implicit Types (raw : option RawExtension.t) (tmp : Template.t) (err : error).

Lemma initial_TemplateStr status : Template.TemplateStr (initial status) = "".
Proof. by destruct status. Qed.

Lemma initial_Helm status : Template.Helm (initial status) = None.
Proof. by destruct status. Qed.

Lemma initial_status st :
  Template.CustomStatus (initial (Some st)) = Status.CustomStatus st ∧
  Template.Health (initial (Some st)) = Status.HealthPolicy st.
Proof. done. Qed.

(** A schematic has the CUE variant, or only the Helm variant, or none. *)
Lemma variant_cases schematic :
  (∃ s cue, schematic = Some s ∧ Schematic.CUE s = Some cue) ∨
  (∃ s helm, schematic = Some s ∧ Schematic.CUE s = None ∧ Schematic.HELM s = Some helm) ∨
  no_variant schematic.
Proof.
  destruct schematic as [s|]; [|by right; right].
  destruct (Schematic.CUE s) as [cue|] eqn:Hcue; [left; eauto|].
  destruct (Schematic.HELM s) as [helm|] eqn:Hhelm; right; [left; eauto|].
  right. by split.
Qed.

(** The CUE variant returns at once. *)
Lemma NewTemplate_CUE s cue status raw :
  Schematic.CUE s = Some cue →
  NewTemplate (Some s) status raw =
    (Some (Template.set_TemplateStr (initial status) (CUE.Template cue)), None).
Proof. intros Hcue. unfold NewTemplate. rewrite Hcue. by destruct status. Qed.

(** So does the Helm variant, when there is no CUE variant. *)
Lemma NewTemplate_HELM s helm status raw :
  Schematic.CUE s = None →
  Schematic.HELM s = Some helm →
  NewTemplate (Some s) status raw =
    (Some (Template.set_CapabilityCategory
             (Template.set_Helm (initial status) (Some helm)) HelmCategory), None).
Proof.
  intros Hcue Hhelm. unfold NewTemplate. rewrite Hcue, Hhelm. by destruct status.
Qed.

(** Without a variant and without an extension, the template stays as it
    started. *)
Lemma NewTemplate_plain schematic status :
  no_variant schematic →
  NewTemplate schematic status None = (Some (initial status), None).
Proof.
  unfold NewTemplate.
  destruct schematic as [s|]; simpl.
  - intros [-> ->]. by destruct status.
  - intros _. by destruct status.
Qed.

(** Without a variant, the extension is decoded. *)
Lemma NewTemplate_extension schematic status r :
  no_variant schematic →
  NewTemplate schematic status (Some r) =
    match Unmarshal_map (RawExtension.bytes r) with
    | inl err => (None, Some err)
    | inr extension =>
        (Some (match extension_template extension with
               | Some tmpStr => Template.set_TemplateStr (initial status) tmpStr
               | None => initial status
               end), None)
    end.
Proof.
  intros Hno.
  assert (NewTemplate schematic status (Some r) =
          NewTemplate None status (Some r)) as ->.
  { destruct schematic as [s|]; [|done].
    destruct Hno as [Hcue Hhelm]. unfold NewTemplate. by rewrite Hcue, Hhelm. }
  unfold NewTemplate, extension_template.
  destruct status as [st|]; simpl;
    destruct (Unmarshal_map (RawExtension.bytes r)) as [err|extension]; try done;
    destruct (extension !! "template") as [v|]; simpl; try done;
    by destruct (json.as_string v).
Qed.

(** [NewTemplate] never returns a nil template together with a nil error,
    nor a template together with an error. *)
Lemma NewTemplate_result schematic status raw :
  (∃ err, NewTemplate schematic status raw = (None, Some err)) ∨
  (∃ tmp, NewTemplate schematic status raw = (Some tmp, None)).
Proof.
  destruct (variant_cases schematic)
    as [(s & cue & -> & Hcue)|[(s & helm & -> & Hcue & Hhelm)|Hno]].
  - right. rewrite (NewTemplate_CUE _ _ _ _ Hcue). eauto.
  - right. rewrite (NewTemplate_HELM _ _ _ _ Hcue Hhelm). eauto.
  - destruct raw as [r|].
    + rewrite (NewTemplate_extension _ _ _ Hno).
      destruct (Unmarshal_map _); eauto.
    + right. rewrite (NewTemplate_plain _ _ Hno). eauto.
Qed.

(** C7: [NewTemplate] returns an error exactly when no CUE or Helm variant
    ended the extraction, the extension is non-nil, and decoding it as JSON
    fails, the error being the decoder's; on every input it returns either
    an error alone or a template alone; and with all three inputs nil it
    returns the zero template, whose template string is empty and whose
    Helm reference is nil. *)
Theorem NewTemplate_fails_only_on_malformed_extension schematic status raw :
  (∀ err, NewTemplate schematic status raw = (None, Some err) ↔
          no_variant schematic ∧
          ∃ r, raw = Some r ∧ Unmarshal_map (RawExtension.bytes r) = inl err) ∧
  ((∃ err, NewTemplate schematic status raw = (None, Some err)) ∨
   (∃ tmp, NewTemplate schematic status raw = (Some tmp, None))) ∧
  NewTemplate None None None = (Some zero, None) ∧
  Template.TemplateStr (zero : Template.t) = "" ∧
  Template.Helm (zero : Template.t) = None.
Proof.
  split; [|split; [apply NewTemplate_result|done]].
  intros err. split.
  - destruct (variant_cases schematic)
      as [(s & cue & -> & Hcue)|[(s & helm & -> & Hcue & Hhelm)|Hno]].
    + by rewrite (NewTemplate_CUE _ _ _ _ Hcue).
    + by rewrite (NewTemplate_HELM _ _ _ _ Hcue Hhelm).
    + destruct raw as [r|].
      * rewrite (NewTemplate_extension _ _ _ Hno).
        destruct (Unmarshal_map (RawExtension.bytes r)) as [err'|ext] eqn:Hdec;
          [|done].
        intros [= ->]. eauto.
      * by rewrite (NewTemplate_plain _ _ Hno).
  - intros (Hno & r & -> & Hdec).
    by rewrite (NewTemplate_extension _ _ _ Hno), Hdec.
Qed.

(** C8: with a non-nil status, [NewTemplate] returns a template whose
    custom status and health are the status's two rules, in the CUE branch,
    in the Helm branch and in the extension branch alike; the only other
    outcome is the decoding error of the extension branch, which returns no
    template. *)
Theorem NewTemplate_copies_status schematic st raw :
  (∃ tmp, NewTemplate schematic (Some st) raw = (Some tmp, None) ∧
          Template.CustomStatus tmp = Status.CustomStatus st ∧
          Template.Health tmp = Status.HealthPolicy st) ∨
  (no_variant schematic ∧
   ∃ r err, raw = Some r ∧ Unmarshal_map (RawExtension.bytes r) = inl err ∧
            NewTemplate schematic (Some st) raw = (None, Some err)).
Proof.
  destruct (variant_cases schematic)
    as [(s & cue & -> & Hcue)|[(s & helm & -> & Hcue & Hhelm)|Hno]].
  - left. eexists. by rewrite (NewTemplate_CUE _ _ _ _ Hcue).
  - left. eexists. by rewrite (NewTemplate_HELM _ _ _ _ Hcue Hhelm).
  - destruct raw as [r|].
    + pose proof (NewTemplate_extension schematic (Some st) r Hno) as Hnew.
      destruct (Unmarshal_map (RawExtension.bytes r)) as [err|ext] eqn:Hdec.
      * right. split; [done|]. by exists r, err.
      * left. eexists. split; [exact Hnew|]. by destruct (extension_template ext).
    + left. eexists. by rewrite (NewTemplate_plain _ _ Hno).
Qed.

End NewTemplate_facts.

Section LoadTemplate_facts.
Context `{Declared} `{!Unmarshal}.

Implicit Types (cli : Reader) (key : string) (kd : CapType).
Implicit Types (tmp tmpl : Template.t) (err : error).

#[local] Arguments IsNotFound _ : simpl never.

(** Runs the store queries of [LoadTemplate] symbolically. *)
Ltac run_queries :=
  unfold LoadTemplate, GetDefinition, bind, tell, ret; simpl.

Lemma initial_CapabilityCategory status :
  Template.CapabilityCategory (initial status) = PlainCategory.
Proof. by destruct status. Qed.

(** *** The Trait case *)

Lemma LoadTemplate_trait_lookup_failed cli key err :
  Get_TraitDefinition cli key = inl err →
  LoadTemplate cli key TypeTrait =
    ((None, Some (errors_WithMessagef err "LoadTemplate [%s] " [ArgString key])),
     [query TraitDefinitionResource key]).
Proof. intros Hget. run_queries. by rewrite Hget. Qed.

Lemma LoadTemplate_trait_error cli key td err :
  Get_TraitDefinition cli key = inr td →
  NewTemplate (TraitDefinition.Spec_Schematic td) (TraitDefinition.Spec_Status td)
    (TraitDefinition.Spec_Extension td) = (None, Some err) →
  LoadTemplate cli key TypeTrait =
    ((None, Some (errors_WithMessagef err "LoadTemplate [%s] " [ArgString key])),
     [query TraitDefinitionResource key]).
Proof. intros Hget Hnew. run_queries. rewrite Hget. simpl. by rewrite Hnew. Qed.

Lemma LoadTemplate_trait_template cli key td tmp :
  Get_TraitDefinition cli key = inr td →
  NewTemplate (TraitDefinition.Spec_Schematic td) (TraitDefinition.Spec_Status td)
    (TraitDefinition.Spec_Extension td) = (Some tmp, None) →
  LoadTemplate cli key TypeTrait =
    ((Some (Template.set_CapabilityCategory tmp (trait_category td)), None),
     [query TraitDefinitionResource key]).
Proof.
  intros Hget Hnew. run_queries. rewrite Hget. simpl. rewrite Hnew.
  unfold trait_category. by case_match.
Qed.

(** *** The Component case, the ComponentDefinition being found *)

Lemma LoadTemplate_component_error cli key cd err :
  Get_ComponentDefinition cli key = inr cd →
  NewTemplate (ComponentDefinition.Spec_Schematic cd)
    (ComponentDefinition.Spec_Status cd) (ComponentDefinition.Spec_Extension cd)
    = (None, Some err) →
  LoadTemplate cli key TypeComponentDefinition =
    ((None, Some (errors_WithMessagef err "LoadTemplate [%s] " [ArgString key])),
     [query ComponentDefinitionResource key]).
Proof. intros Hget Hnew. run_queries. rewrite Hget. simpl. by rewrite Hnew. Qed.

Lemma LoadTemplate_component_template cli key cd tmp :
  Get_ComponentDefinition cli key = inr cd →
  NewTemplate (ComponentDefinition.Spec_Schematic cd)
    (ComponentDefinition.Spec_Status cd) (ComponentDefinition.Spec_Extension cd)
    = (Some tmp, None) →
  LoadTemplate cli key TypeComponentDefinition =
    ((Some (let tmpl :=
              Template.set_Reference tmp (ComponentDefinition.Spec_Workload_Definition cd) in
            if String.eqb (map_index (ComponentDefinition.Annotations cd) "type")
                          TerraformCategory
            then Template.set_CapabilityCategory tmpl TerraformCategory
            else tmpl), None),
     [query ComponentDefinitionResource key]).
Proof. intros Hget Hnew. run_queries. rewrite Hget. simpl. by rewrite Hnew. Qed.

Lemma LoadTemplate_component_lookup_failed cli key err :
  Get_ComponentDefinition cli key = inl err →
  IsNotFound (Some err) = false →
  LoadTemplate cli key TypeComponentDefinition =
    ((None, Some (errors_WithMessagef err
                    "LoadTemplate from ComponentDefinition [%s] " [ArgString key])),
     [query ComponentDefinitionResource key]).
Proof. intros Hget Hnf. run_queries. rewrite Hget. simpl. by rewrite Hnf. Qed.

(** *** The Component case, falling back to the WorkloadDefinition *)

Lemma LoadTemplate_workload_error cli key err0 wd err :
  Get_ComponentDefinition cli key = inl err0 →
  IsNotFound (Some err0) = true →
  Get_WorkloadDefinition cli key = inr wd →
  NewTemplate (WorkloadDefinition.Spec_Schematic wd)
    (WorkloadDefinition.Spec_Status wd) (WorkloadDefinition.Spec_Extension wd)
    = (None, Some err) →
  LoadTemplate cli key TypeComponentDefinition =
    ((None, Some (errors_WithMessagef err "LoadTemplate [%s] " [ArgString key])),
     [query ComponentDefinitionResource key; query WorkloadDefinitionResource key]).
Proof.
  intros Hcd Hnf Hwd Hnew. run_queries. rewrite Hcd. simpl. rewrite Hnf.
  simpl. rewrite Hwd. simpl. by rewrite Hnew.
Qed.

(** The ComponentDefinition the fallback reads the reference and the
    annotations from is the one allocated before the failed lookup: the
    reference stays zero and no annotation is seen. *)
Lemma LoadTemplate_workload_template cli key err0 wd tmp :
  Get_ComponentDefinition cli key = inl err0 →
  IsNotFound (Some err0) = true →
  Get_WorkloadDefinition cli key = inr wd →
  NewTemplate (WorkloadDefinition.Spec_Schematic wd)
    (WorkloadDefinition.Spec_Status wd) (WorkloadDefinition.Spec_Extension wd)
    = (Some tmp, None) →
  LoadTemplate cli key TypeComponentDefinition =
    ((Some (Template.set_Reference tmp zero), None),
     [query ComponentDefinitionResource key; query WorkloadDefinitionResource key]).
Proof.
  intros Hcd Hnf Hwd Hnew. run_queries. rewrite Hcd. simpl. rewrite Hnf.
  simpl. rewrite Hwd. simpl. by rewrite Hnew.
Qed.

(** *** Every located definition *)

Lemma LoadTemplate_located_error cli key kd schematic status extension err :
  Locates cli key kd schematic status extension →
  NewTemplate schematic status extension = (None, Some err) →
  (LoadTemplate cli key kd).1 =
    (None, Some (errors_WithMessagef err "LoadTemplate [%s] " [ArgString key])).
Proof.
  intros Hloc Hnew. inversion Hloc; subst.
  - by erewrite LoadTemplate_component_error.
  - by erewrite LoadTemplate_workload_error.
  - by erewrite LoadTemplate_trait_error.
Qed.

(** Whatever template [NewTemplate] builds for a located definition is
    returned, be it empty: the locator changes its reference and its
    category only. *)
Lemma LoadTemplate_located_template cli key kd schematic status extension tmp :
  Locates cli key kd schematic status extension →
  NewTemplate schematic status extension = (Some tmp, None) →
  ∃ tmpl, (LoadTemplate cli key kd).1 = (Some tmpl, None) ∧
          Template.TemplateStr tmpl = Template.TemplateStr tmp ∧
          Template.Helm tmpl = Template.Helm tmp ∧
          Template.CustomStatus tmpl = Template.CustomStatus tmp ∧
          Template.Health tmpl = Template.Health tmp.
Proof.
  intros Hloc Hnew. inversion Hloc; subst.
  - erewrite LoadTemplate_component_template by done.
    eexists. split; [done|]. simpl. by case_match.
  - erewrite LoadTemplate_workload_template by done.
    by eexists.
  - erewrite LoadTemplate_trait_template by done.
    by eexists.
Qed.

(** The error "no template found in definition" is never returned: the
    test that guards it asks for a nil template, and [NewTemplate] returns
    none without an error. *)
Lemma LoadTemplate_never_no_template_found cli key kd :
  (LoadTemplate cli key kd).1.2 ≠ Some (errors_New "no template found in definition").
Proof.
  destruct kd; try done.
  - destruct (Get_ComponentDefinition cli key) as [err0|cd] eqn:Hcd.
    + destruct (IsNotFound (Some err0)) eqn:Hnf.
      * destruct (Get_WorkloadDefinition cli key) as [err1|wd] eqn:Hwd.
        { run_queries. by rewrite Hcd; simpl; rewrite Hnf; simpl; rewrite Hwd. }
        destruct (NewTemplate_result (WorkloadDefinition.Spec_Schematic wd)
                    (WorkloadDefinition.Spec_Status wd)
                    (WorkloadDefinition.Spec_Extension wd)) as [[err Hnew]|[tmp Hnew]].
        { by erewrite LoadTemplate_workload_error. }
        by erewrite LoadTemplate_workload_template.
      * by erewrite LoadTemplate_component_lookup_failed.
    + destruct (NewTemplate_result (ComponentDefinition.Spec_Schematic cd)
                  (ComponentDefinition.Spec_Status cd)
                  (ComponentDefinition.Spec_Extension cd)) as [[err Hnew]|[tmp Hnew]].
      * by erewrite LoadTemplate_component_error.
      * by erewrite LoadTemplate_component_template.
  - destruct (Get_TraitDefinition cli key) as [err0|td] eqn:Htd.
    + by erewrite LoadTemplate_trait_lookup_failed.
    + destruct (NewTemplate_result (TraitDefinition.Spec_Schematic td)
                  (TraitDefinition.Spec_Status td)
                  (TraitDefinition.Spec_Extension td)) as [[err Hnew]|[tmp Hnew]].
      * by erewrite LoadTemplate_trait_error.
      * by erewrite LoadTemplate_trait_template.
Qed.

End LoadTemplate_facts.

Section LoadTemplate_claims.
Context `{Declared} `{!Unmarshal}.

Implicit Types (cli : Reader) (key : string) (kd : CapType).
Implicit Types (tmp tmpl : Template.t) (err : error).

(** C3, as amended: when the located definition has no CUE and no Helm
    variant (or no schematic at all) and its extension is present but does
    not decode as JSON, the resolution fails with the decoder's error,
    wrapped with the message "LoadTemplate [key] ", and returns no template,
    whatever the status is.  (With a CUE or a Helm variant the extension is
    not decoded.) *)
Theorem LoadTemplate_malformed_extension cli key kd schematic status r err :
  Locates cli key kd schematic status (Some r) →
  no_variant schematic →
  Unmarshal_map (RawExtension.bytes r) = inl err →
  (LoadTemplate cli key kd).1 =
    (None, Some (errors_WithMessagef err "LoadTemplate [%s] " [ArgString key])).
Proof.
  intros Hloc Hno Hdec.
  apply (LoadTemplate_located_error _ _ _ _ _ _ _ Hloc).
  by rewrite (NewTemplate_extension _ _ _ Hno), Hdec.
Qed.

(** C4: when the ComponentDefinition is found and its schematic has the CUE
    variant, [LoadTemplate] returns, after that one query, a template whose
    template string is the CUE body and whose Helm reference is nil,
    whatever the Helm variant and the extension of the definition are. *)
Theorem LoadTemplate_component_CUE cli key cd s cue :
  Get_ComponentDefinition cli key = inr cd →
  ComponentDefinition.Spec_Schematic cd = Some s →
  Schematic.CUE s = Some cue →
  ∃ tmpl,
    LoadTemplate cli key TypeComponentDefinition =
      ((Some tmpl, None), [query ComponentDefinitionResource key]) ∧
    Template.TemplateStr tmpl = CUE.Template cue ∧
    Template.Helm tmpl = None.
Proof.
  intros Hget Hs Hcue.
  pose proof (NewTemplate_CUE s cue (ComponentDefinition.Spec_Status cd)
                (ComponentDefinition.Spec_Extension cd) Hcue) as Hnew.
  rewrite <- Hs in Hnew.
  rewrite (LoadTemplate_component_template _ _ _ _ Hget Hnew).
  eexists. split; [reflexivity|].
  simpl. case_match; simpl; auto using initial_Helm.
Qed.

(** C5: when the ComponentDefinition lookup fails with NotFound and the
    WorkloadDefinition of the same name is found with the CUE variant,
    [LoadTemplate] returns, after the two queries, a template whose template
    string is the WorkloadDefinition's CUE body, whose reference is the zero
    workload GVK and whose category is the plain one, whatever the
    annotations of the WorkloadDefinition are. *)
Theorem LoadTemplate_workload_fallback_CUE cli key err wd s cue :
  Get_ComponentDefinition cli key = inl err →
  IsNotFound (Some err) = true →
  Get_WorkloadDefinition cli key = inr wd →
  WorkloadDefinition.Spec_Schematic wd = Some s →
  Schematic.CUE s = Some cue →
  ∃ tmpl,
    LoadTemplate cli key TypeComponentDefinition =
      ((Some tmpl, None),
       [query ComponentDefinitionResource key; query WorkloadDefinitionResource key]) ∧
    Template.TemplateStr tmpl = CUE.Template cue ∧
    Template.Reference tmpl = zero ∧
    Template.CapabilityCategory tmpl = PlainCategory.
Proof.
  intros Hcd Hnf Hwd Hs Hcue.
  pose proof (NewTemplate_CUE s cue (WorkloadDefinition.Spec_Status wd)
                (WorkloadDefinition.Spec_Extension wd) Hcue) as Hnew.
  rewrite <- Hs in Hnew.
  exists (Template.set_Reference
            (Template.set_TemplateStr (initial (WorkloadDefinition.Spec_Status wd))
               (CUE.Template cue)) zero).
  split; [exact (LoadTemplate_workload_template _ _ _ _ _ Hcd Hnf Hwd Hnew)|].
  repeat split. apply initial_CapabilityCategory.
Qed.

(** C6: when the ComponentDefinition lookup fails with NotFound and the
    lookup of the WorkloadDefinition fails too, for whatever reason,
    [LoadTemplate] returns no template and the second lookup's error, wrapped
    with the message "LoadTemplate from WorkloadDefinition [key] ". *)
Theorem LoadTemplate_workload_lookup_failed cli key err err' :
  Get_ComponentDefinition cli key = inl err →
  IsNotFound (Some err) = true →
  Get_WorkloadDefinition cli key = inl err' →
  LoadTemplate cli key TypeComponentDefinition =
    ((None, Some (errors_WithMessagef err'
                    "LoadTemplate from WorkloadDefinition [%s] " [ArgString key])),
     [query ComponentDefinitionResource key; query WorkloadDefinitionResource key]).
Proof.
  intros Hcd Hnf Hwd.
  unfold LoadTemplate, GetDefinition, bind, tell, ret. cbn -[IsNotFound].
  rewrite Hcd. cbn -[IsNotFound]. rewrite Hnf. cbn. by rewrite Hwd.
Qed.

(** C10: for every reader and every name, [LoadTemplate] of kind Scope
    returns no template and the error "kind(Scope) of name not supported",
    and makes no query to the store. *)
Theorem LoadTemplate_scope_unsupported cli key :
  LoadTemplate cli key TypeScope =
    ((None, Some (fmt_Errorf "kind(%s) of %s not supported"
                    [ArgCapType TypeScope; ArgString key])), []).
Proof. reflexivity. Qed.

(** The Helm category survives the Component case: it is replaced only
    when the annotation says Terraform. *)
Lemma LoadTemplate_component_HELM cli key cd s helm :
  Get_ComponentDefinition cli key = inr cd →
  ComponentDefinition.Spec_Schematic cd = Some s →
  Schematic.CUE s = None →
  Schematic.HELM s = Some helm →
  map_index (ComponentDefinition.Annotations cd) "type" ≠ TerraformCategory →
  ∃ tmpl,
    (LoadTemplate cli key TypeComponentDefinition).1 = (Some tmpl, None) ∧
    Template.Helm tmpl = Some helm ∧
    Template.CapabilityCategory tmpl = HelmCategory.
Proof.
  intros Hget Hs Hcue Hhelm Hann.
  pose proof (NewTemplate_HELM s helm (ComponentDefinition.Spec_Status cd)
                (ComponentDefinition.Spec_Extension cd) Hcue Hhelm) as Hnew.
  rewrite <- Hs in Hnew.
  rewrite (LoadTemplate_component_template _ _ _ _ Hget Hnew).
  apply String.eqb_neq in Hann. simpl. rewrite Hann. by eexists.
Qed.

(** It does not survive the Trait case, which assigns the category of the
    annotations over it: the category is Terraform or plain, never Helm. *)
Lemma LoadTemplate_trait_HELM cli key td s helm :
  Get_TraitDefinition cli key = inr td →
  TraitDefinition.Spec_Schematic td = Some s →
  Schematic.CUE s = None →
  Schematic.HELM s = Some helm →
  ∃ tmpl,
    (LoadTemplate cli key TypeTrait).1 = (Some tmpl, None) ∧
    Template.Helm tmpl = Some helm ∧
    Template.CapabilityCategory tmpl = trait_category td ∧
    Template.CapabilityCategory tmpl ≠ HelmCategory.
Proof.
  intros Hget Hs Hcue Hhelm.
  pose proof (NewTemplate_HELM s helm (TraitDefinition.Spec_Status td)
                (TraitDefinition.Spec_Extension td) Hcue Hhelm) as Hnew.
  rewrite <- Hs in Hnew.
  rewrite (LoadTemplate_trait_template _ _ _ _ Hget Hnew).
  eexists. split; [reflexivity|]. simpl. repeat split.
  unfold trait_category. by case_match.
Qed.

End LoadTemplate_claims.

Section ConvertTemplateJSON2Object_facts.
Context `{Declared} `{!Unmarshal}.

Implicit Types (schematic : option Schematic.t).
Implicit Types (t : Capability.t) (capTemplate : Template.t).

(** The function unfolded along the outcome of [NewTemplate]. *)
Lemma ConvertTemplateJSON2Object_unfold
    capabilityName (in_ : option RawExtension.t) schematic :
  ConvertTemplateJSON2Object capabilityName in_ schematic =
    let t := Capability.set_Name zero capabilityName in
    match NewTemplate schematic None in_ with
    | (_, Some err) => Some (t, Some (errors_Wrapf err "parse cue template" []))
    | (capTemplate, None) =>
        match descriptor_unmarshal in_ t with
        | (t, Some err) => Some (t, Some (errors_Wrapf err "parse extension fail" []))
        | (t, None) =>
            capTemplate ← capTemplate;
            Some (if negb (String.eqb (Template.TemplateStr capTemplate) "")
                  then Capability.set_CueTemplate t (Template.TemplateStr capTemplate)
                  else t, None)
        end
    end.
Proof.
  unfold ConvertTemplateJSON2Object, descriptor_unmarshal.
  destruct (NewTemplate schematic None in_) as [capTemplate [err|]]; [done|].
  destruct in_ as [[[data|]]|]; simpl; try done.
  all: try destruct (Unmarshal_Capability _ _) as [t [err|]]; try done.
Qed.

(** Reading the template never panics. *)
Lemma ConvertTemplateJSON2Object_returns
    capabilityName (in_ : option RawExtension.t) schematic :
  is_Some (ConvertTemplateJSON2Object capabilityName in_ schematic).
Proof.
  rewrite ConvertTemplateJSON2Object_unfold. simpl.
  destruct (NewTemplate_result schematic None in_) as [[err ->]|[tmp ->]]; [done|].
  by destruct (descriptor_unmarshal _ _) as [t [err|]].
Qed.

(** When the full-descriptor unmarshal fails, the capability it left is
    returned with the error, and the extracted template is not laid over
    it. *)
Lemma ConvertTemplateJSON2Object_unmarshal_failed
    capabilityName (in_ : option RawExtension.t) schematic capTemplate t err :
  NewTemplate schematic None in_ = (Some capTemplate, None) →
  descriptor_unmarshal in_ (Capability.set_Name zero capabilityName) = (t, Some err) →
  ConvertTemplateJSON2Object capabilityName in_ schematic =
    Some (t, Some (errors_Wrapf err "parse extension fail" [])).
Proof.
  intros Hnew Hdec. rewrite ConvertTemplateJSON2Object_unfold. simpl.
  by rewrite Hnew, Hdec.
Qed.

(** C9, as amended: when the extraction over the schematic and the
    extension yields the template string S and the full-descriptor unmarshal
    of the extension does not fail, [ConvertTemplateJSON2Object] returns,
    without error, the unmarshalled capability with its CUE template set to
    S if S is not empty, and with the CUE template the unmarshal gave it if S
    is empty; its other fields are the unmarshalled ones. *)
Theorem ConvertTemplateJSON2Object_overlay
    capabilityName (in_ : option RawExtension.t) schematic capTemplate t :
  NewTemplate schematic None in_ = (Some capTemplate, None) →
  descriptor_unmarshal in_ (Capability.set_Name zero capabilityName) = (t, None) →
  ∃ t',
    ConvertTemplateJSON2Object capabilityName in_ schematic = Some (t', None) ∧
    Capability.CueTemplate t' =
      (if String.eqb (Template.TemplateStr capTemplate) ""
       then Capability.CueTemplate t
       else Template.TemplateStr capTemplate) ∧
    Capability.Name t' = Capability.Name t ∧
    Capability.Fields t' = Capability.Fields t.
Proof.
  intros Hnew Hdec. rewrite ConvertTemplateJSON2Object_unfold. simpl.
  rewrite Hnew, Hdec. simpl.
  eexists. split; [reflexivity|].
  by destruct (String.eqb (Template.TemplateStr capTemplate) "").
Qed.

End ConvertTemplateJSON2Object_facts.

(** * The functions on the example store *)

Section on_the_example_store.
Import example.
#[local] Existing Instance declared.
#[local] Existing Instance unmarshal.

(** C1: the TraitDefinition [bare] has no schematic, no status and no
    extension; [NewTemplate] builds the empty template for it, with empty
    template string and nil Helm reference, and [LoadTemplate] returns that
    empty template with a nil error instead of the error "no template found
    in definition". *)
Theorem LoadTemplate_returns_empty_template :
  NewTemplate (TraitDefinition.Spec_Schematic bare) (TraitDefinition.Spec_Status bare)
    (TraitDefinition.Spec_Extension bare) = (Some zero, None) ∧
  Template.TemplateStr (zero : Template.t) = "" ∧
  Template.Helm (zero : Template.t) = None ∧
  LoadTemplate cli "bare" TypeTrait =
    ((Some zero, None), [query TraitDefinitionResource "bare"]).
Proof. repeat split. Qed.

(** C2: the TraitDefinition [release] has a Helm reference, no CUE template
    and no annotation; [LoadTemplate] returns a template that holds the Helm
    reference, yet its category is the plain one, not Helm. *)
Theorem LoadTemplate_trait_loses_Helm_category :
  ∃ tmpl,
    LoadTemplate cli "release" TypeTrait =
      ((Some tmpl, None), [query TraitDefinitionResource "release"]) ∧
    Template.Helm tmpl = Some chart ∧
    Template.CapabilityCategory tmpl = PlainCategory ∧
    Template.CapabilityCategory tmpl ≠ HelmCategory.
Proof. eexists. split; [reflexivity|]. by repeat split. Qed.

(** C3, refuted as stated: the ComponentDefinition [both] is located, its
    extension is present and does not decode as JSON, and the resolution
    succeeds all the same, with the CUE template of its schematic. *)
Lemma LoadTemplate_CUE_skips_malformed_extension :
  Locates cli "both" TypeComponentDefinition
    (ComponentDefinition.Spec_Schematic both) (ComponentDefinition.Spec_Status both)
    (raw "{") ∧
  Unmarshal_map (String.list_byte_of_string "{") = inl (SyntaxError "invalid JSON input") ∧
  ∃ tmpl,
    (LoadTemplate cli "both" TypeComponentDefinition).1 = (Some tmpl, None) ∧
    Template.TemplateStr tmpl = "output: {}".
Proof.
  split; [|split].
  - by apply (Locates_component cli "both" both).
  - reflexivity.
  - eexists. split; reflexivity.
Qed.

(** C9, refuted as stated: for a schematic with the CUE template
    "output: {}" and an extension that does not decode as JSON, the
    extraction yields the non-empty string "output: {}", and the capability
    [ConvertTemplateJSON2Object] returns, next to the error of the
    full-descriptor unmarshal, has an empty CUE template. *)
Lemma ConvertTemplateJSON2Object_no_overlay_on_failure :
  let schematic := Some (cue_only "output: {}") in
  (∃ capTemplate,
     NewTemplate schematic None (raw "{") = (Some capTemplate, None) ∧
     Template.TemplateStr capTemplate = "output: {}") ∧
  ∃ t,
    ConvertTemplateJSON2Object "worker" (raw "{") schematic =
      Some (t, Some (errors_Wrapf (SyntaxError "invalid JSON input")
                       "parse extension fail" [])) ∧
    Capability.CueTemplate t = "".
Proof.
  split.
  - eexists. split; reflexivity.
  - eexists. split; reflexivity.
Qed.

(** Instance of C3 as amended: the TraitDefinition [broken] has no
    schematic and the extension "{". *)
Lemma LoadTemplate_malformed_extension_witness :
  Locates cli "broken" TypeTrait None (TraitDefinition.Spec_Status broken) (raw "{") ∧
  no_variant None ∧
  Unmarshal_map (String.list_byte_of_string "{") = inl (SyntaxError "invalid JSON input") ∧
  (LoadTemplate cli "broken" TypeTrait).1 =
    (None, Some (errors_WithMessagef (SyntaxError "invalid JSON input")
                   "LoadTemplate [%s] " [ArgString "broken"])).
Proof.
  assert (Locates cli "broken" TypeTrait None (TraitDefinition.Spec_Status broken)
            (raw "{")) as Hloc.
  { apply (Locates_trait cli "broken" broken). reflexivity. }
  split; [exact Hloc|]. split; [exact I|]. split; [reflexivity|].
  apply (LoadTemplate_malformed_extension cli "broken" TypeTrait None
           (TraitDefinition.Spec_Status broken)
           {| RawExtension.Raw := Some (String.list_byte_of_string "{") |}
           (SyntaxError "invalid JSON input") Hloc I).
  reflexivity.
Defined.

(** Instance of C4: the ComponentDefinition [both] has a CUE template, a
    Helm reference and an extension at once. *)
Lemma LoadTemplate_component_CUE_witness :
  Get_ComponentDefinition cli "both" = inr both ∧
  ∃ tmpl,
    LoadTemplate cli "both" TypeComponentDefinition =
      ((Some tmpl, None), [query ComponentDefinitionResource "both"]) ∧
    Template.TemplateStr tmpl = "output: {}" ∧
    Template.Helm tmpl = None.
Proof.
  split; [reflexivity|].
  apply (LoadTemplate_component_CUE cli "both" both cue_and_chart
           {| CUE.Template := "output: {}" |}); reflexivity.
Defined.

(** Instance of C5: no ComponentDefinition is named [legacy]; the
    WorkloadDefinition of that name has a CUE template and the annotation
    that marks Terraform. *)
Lemma LoadTemplate_workload_fallback_CUE_witness :
  Get_ComponentDefinition cli "legacy" = inl (not_found "legacy") ∧
  Get_WorkloadDefinition cli "legacy" = inr legacy ∧
  WorkloadDefinition.Annotations legacy !! "type" = Some "terraform" ∧
  ∃ tmpl,
    LoadTemplate cli "legacy" TypeComponentDefinition =
      ((Some tmpl, None),
       [query ComponentDefinitionResource "legacy";
        query WorkloadDefinitionResource "legacy"]) ∧
    Template.TemplateStr tmpl = "output: {kind: Job}" ∧
    Template.Reference tmpl = zero ∧
    Template.CapabilityCategory tmpl = PlainCategory.
Proof.
  split; [reflexivity|]. split; [reflexivity|]. split; [reflexivity|].
  apply (LoadTemplate_workload_fallback_CUE cli "legacy" (not_found "legacy") legacy
           (cue_only "output: {kind: Job}")
           {| CUE.Template := "output: {kind: Job}" |}); reflexivity.
Defined.

(** Instance of C6: the store holds no definition named [ghost]. *)
Lemma LoadTemplate_workload_lookup_failed_witness :
  Get_ComponentDefinition cli "ghost" = inl (not_found "ghost") ∧
  IsNotFound (Some (not_found "ghost")) = true ∧
  Get_WorkloadDefinition cli "ghost" = inl (not_found "ghost") ∧
  LoadTemplate cli "ghost" TypeComponentDefinition =
    ((None, Some (errors_WithMessagef (not_found "ghost")
                    "LoadTemplate from WorkloadDefinition [%s] " [ArgString "ghost"])),
     [query ComponentDefinitionResource "ghost";
      query WorkloadDefinitionResource "ghost"]).
Proof.
  repeat (split; [reflexivity|]).
  apply (LoadTemplate_workload_lookup_failed cli "ghost"
           (not_found "ghost") (not_found "ghost")); reflexivity.
Defined.

(** Instance of C9 as amended: the blob carries a template of its own, and
    the CUE template of the schematic is laid over it. *)
Lemma ConvertTemplateJSON2Object_overlay_witness :
  let schematic := Some (cue_only "output: {}") in
  NewTemplate schematic None blob =
    (Some (Template.set_TemplateStr zero "output: {}"), None) ∧
  descriptor_unmarshal blob (Capability.set_Name zero "worker") = (decoded_blob, None) ∧
  Capability.CueTemplate decoded_blob = "legacy: {}" ∧
  ∃ t',
    ConvertTemplateJSON2Object "worker" blob schematic = Some (t', None) ∧
    Capability.CueTemplate t' = "output: {}" ∧
    Capability.Name t' = "renamed" ∧
    Capability.Fields t' = Capability.Fields decoded_blob.
Proof.
  intros schematic.
  split; [reflexivity|]. split; [reflexivity|]. split; [reflexivity|].
  apply (ConvertTemplateJSON2Object_overlay "worker" blob schematic
           (Template.set_TemplateStr zero "output: {}") decoded_blob);
    reflexivity.
Defined.

End on_the_example_store.

(** * Further properties of [NewTemplate] *)

Section NewTemplate_more.
Context `{Declared} `{!Unmarshal}.

Implicit Types (schematic : option Schematic.t) (status : option Status.t).
Implicit Types (raw : option RawExtension.t) (tmp : Template.t).

Lemma initial_Reference status : Template.Reference (initial status) = zero.
Proof. by destruct status. Qed.

(** Every template [NewTemplate] returns is one of three shapes. *)
Lemma NewTemplate_shapes schematic status raw tmp :
  NewTemplate schematic status raw = (Some tmp, None) →
  (∃ s cue, schematic = Some s ∧ Schematic.CUE s = Some cue ∧
            tmp = Template.set_TemplateStr (initial status) (CUE.Template cue)) ∨
  (∃ s helm, schematic = Some s ∧ Schematic.CUE s = None ∧
             Schematic.HELM s = Some helm ∧
             tmp = Template.set_CapabilityCategory
                     (Template.set_Helm (initial status) (Some helm)) HelmCategory) ∨
  (no_variant schematic ∧
   (tmp = initial status ∨ ∃ tmpStr, tmp = Template.set_TemplateStr (initial status) tmpStr)).
Proof.
  intros Hnew.
  destruct (variant_cases schematic)
    as [(s & cue & -> & Hcue)|[(s & helm & -> & Hcue & Hhelm)|Hno]].
  - left. exists s, cue. rewrite (NewTemplate_CUE _ _ _ _ Hcue) in Hnew.
    by injection Hnew as <-.
  - right; left. exists s, helm.
    rewrite (NewTemplate_HELM _ _ _ _ Hcue Hhelm) in Hnew. by injection Hnew as <-.
  - right; right. split; [done|]. destruct raw as [r|].
    + rewrite (NewTemplate_extension _ _ _ Hno) in Hnew.
      destruct (Unmarshal_map _) as [err|ext]; [done|].
      injection Hnew as <-. destruct (extension_template ext); eauto.
    + rewrite (NewTemplate_plain _ _ Hno) in Hnew. injection Hnew as <-. by left.
Qed.

(** X1: a template returned by [NewTemplate] never has both a non-empty
    template string and a Helm reference. *)
Theorem NewTemplate_template_or_helm schematic status raw tmp :
  NewTemplate schematic status raw = (Some tmp, None) →
  Template.TemplateStr tmp = "" ∨ Template.Helm tmp = None.
Proof.
  intros Hnew.
  destruct (NewTemplate_shapes _ _ _ _ Hnew)
    as [(s & cue & _ & _ & ->)|[(s & helm & _ & _ & _ & ->)|[_ [->|[tmpStr ->]]]]];
    simpl; auto using initial_TemplateStr, initial_Helm.
Qed.

(** X2: in a template returned by [NewTemplate] the reference is the zero
    workload GVK, and the category is Helm when the Helm reference is set
    and plain when it is not. *)
Theorem NewTemplate_reference_and_category schematic status raw tmp :
  NewTemplate schematic status raw = (Some tmp, None) →
  Template.Reference tmp = zero ∧
  Template.CapabilityCategory tmp =
    match Template.Helm tmp with
    | Some _ => HelmCategory
    | None => PlainCategory
    end.
Proof.
  intros Hnew.
  destruct (NewTemplate_shapes _ _ _ _ Hnew)
    as [(s & cue & _ & _ & ->)|[(s & helm & _ & _ & _ & ->)|[_ [->|[tmpStr ->]]]]];
    simpl; rewrite ?initial_Helm; auto using initial_Reference, initial_CapabilityCategory.
Qed.

(** X3: without a CUE or Helm variant, an extension that decodes to an
    object whose member [template] is the string X yields a template whose
    template string is X, with no Helm reference and the plain category. *)
Theorem NewTemplate_extension_template schematic status r extension X :
  no_variant schematic →
  Unmarshal_map (RawExtension.bytes r) = inr extension →
  extension !! "template" = Some (json.String X) →
  ∃ tmp,
    NewTemplate schematic status (Some r) = (Some tmp, None) ∧
    Template.TemplateStr tmp = X ∧
    Template.Helm tmp = None ∧
    Template.CapabilityCategory tmp = PlainCategory.
Proof.
  intros Hno Hdec Hkey.
  rewrite (NewTemplate_extension _ _ _ Hno), Hdec.
  unfold extension_template. rewrite Hkey. simpl.
  eexists. split; [reflexivity|]. simpl.
  auto using initial_Helm, initial_CapabilityCategory.
Qed.

(** X4: without a CUE or Helm variant, an extension that decodes to an
    object with no member [template], or with one that is not a string, is
    not an error: the template is returned with an empty template string. *)
Theorem NewTemplate_extension_without_template schematic status r extension :
  no_variant schematic →
  Unmarshal_map (RawExtension.bytes r) = inr extension →
  (∀ X, extension !! "template" ≠ Some (json.String X)) →
  ∃ tmp,
    NewTemplate schematic status (Some r) = (Some tmp, None) ∧
    Template.TemplateStr tmp = "" ∧
    Template.Helm tmp = None.
Proof.
  intros Hno Hdec Hkey.
  rewrite (NewTemplate_extension _ _ _ Hno), Hdec.
  assert (extension_template extension = None) as ->.
  { unfold extension_template.
    destruct (extension !! "template") as [v|] eqn:Hv; [|done].
    destruct v; try done. by destruct (Hkey s). }
  eexists. split; [reflexivity|].
  auto using initial_TemplateStr, initial_Helm.
Qed.

End NewTemplate_more.

Section NewTemplate_decoders.
Context `{Declared}.

(** X5: with a CUE or a Helm variant the extension is never decoded: the
    result is the same for every extension and for every decoder.  In
    particular a CUE variant with an empty body hides the template of the
    extension. *)
Theorem NewTemplate_variant_ignores_extension
    (U U' : Unmarshal) (s : Schematic.t) (status : option Status.t)
    (raw raw' : option RawExtension.t) :
  has_variant s →
  @NewTemplate _ U (Some s) status raw = @NewTemplate _ U' (Some s) status raw'.
Proof.
  intros [[cue Hcue]|[helm Hhelm]].
  - by rewrite !(NewTemplate_CUE _ _ _ _ Hcue).
  - destruct (Schematic.CUE s) as [cue|] eqn:Hcue.
    + by rewrite !(NewTemplate_CUE _ _ _ _ Hcue).
    + by rewrite !(NewTemplate_HELM _ _ _ _ Hcue Hhelm).
Qed.

End NewTemplate_decoders.

(** * Further properties of [LoadTemplate] *)

Section LoadTemplate_more.
Context `{Declared} `{!Unmarshal}.

Implicit Types (cli : Reader) (key : string) (kd : CapType).
Implicit Types (tmp tmpl : Template.t) (err : error).

#[local] Arguments IsNotFound _ : simpl never.

Ltac step_queries :=
  unfold LoadTemplate, GetDefinition, bind, tell, ret; simpl.

(** The fallback lookup failing, as an equation on the whole result. *)
Lemma LoadTemplate_fallback_failed cli key err0 err1 :
  Get_ComponentDefinition cli key = inl err0 →
  IsNotFound (Some err0) = true →
  Get_WorkloadDefinition cli key = inl err1 →
  LoadTemplate cli key TypeComponentDefinition =
    ((None, Some (errors_WithMessagef err1
                    "LoadTemplate from WorkloadDefinition [%s] " [ArgString key])),
     [query ComponentDefinitionResource key; query WorkloadDefinitionResource key]).
Proof.
  intros Hcd Hnf Hwd. step_queries. rewrite Hcd. simpl. rewrite Hnf. simpl.
  by rewrite Hwd.
Qed.

(** The outcomes of [LoadTemplate]: the error of an unsupported kind, a
    cause wrapped with one of the three messages, or the template
    [NewTemplate] built for the located definition, up to its reference and
    its category. *)
Lemma LoadTemplate_cases cli key kd :
  (LoadTemplate cli key kd).1 =
    (None, Some (fmt_Errorf "kind(%s) of %s not supported"
                   [ArgCapType kd; ArgString key])) ∨
  (∃ cause format,
     format ∈ wrapping_formats ∧
     (LoadTemplate cli key kd).1 =
       (None, Some (errors_WithMessagef cause format [ArgString key]))) ∨
  (∃ schematic status extension tmp tmpl,
     Locates cli key kd schematic status extension ∧
     NewTemplate schematic status extension = (Some tmp, None) ∧
     (LoadTemplate cli key kd).1 = (Some tmpl, None) ∧
     Template.TemplateStr tmpl = Template.TemplateStr tmp ∧
     Template.Helm tmpl = Template.Helm tmp ∧
     Template.CustomStatus tmpl = Template.CustomStatus tmp ∧
     Template.Health tmpl = Template.Health tmp).
Proof.
  assert (∀ schematic status extension,
            Locates cli key kd schematic status extension →
            (∃ cause format,
               format ∈ wrapping_formats ∧
               (LoadTemplate cli key kd).1 =
                 (None, Some (errors_WithMessagef cause format [ArgString key]))) ∨
            (∃ schematic status extension tmp tmpl,
               Locates cli key kd schematic status extension ∧
               NewTemplate schematic status extension = (Some tmp, None) ∧
               (LoadTemplate cli key kd).1 = (Some tmpl, None) ∧
               Template.TemplateStr tmpl = Template.TemplateStr tmp ∧
               Template.Helm tmpl = Template.Helm tmp ∧
               Template.CustomStatus tmpl = Template.CustomStatus tmp ∧
               Template.Health tmpl = Template.Health tmp)) as Hlocated.
  { intros schematic status extension Hloc.
    destruct (NewTemplate_result schematic status extension)
      as [[cause Hnew]|[tmp Hnew]].
    - left. exists cause, "LoadTemplate [%s] ". split.
      + unfold wrapping_formats. set_solver.
      + by apply (LoadTemplate_located_error _ _ _ _ _ _ _ Hloc).
    - right.
      destruct (LoadTemplate_located_template _ _ _ _ _ _ _ Hloc Hnew)
        as (tmpl & Hres & Hfields).
      exists schematic, status, extension, tmp, tmpl. by repeat split; try apply Hfields. }
  destruct kd as [| | |s]; [| |by left..].
  - destruct (Get_ComponentDefinition cli key) as [err0|cd] eqn:Hcd.
    + destruct (IsNotFound (Some err0)) eqn:Hnf.
      * destruct (Get_WorkloadDefinition cli key) as [err1|wd] eqn:Hwd.
        { right; left. eexists _, _. split; [|by erewrite LoadTemplate_fallback_failed].
          unfold wrapping_formats. set_solver. }
        right. eapply Hlocated. by eapply Locates_workload.
      * right; left. eexists _, _.
        split; [|by erewrite LoadTemplate_component_lookup_failed].
        unfold wrapping_formats. set_solver.
    + right. eapply Hlocated. by eapply Locates_component.
  - destruct (Get_TraitDefinition cli key) as [err0|td] eqn:Htd.
    + right; left. eexists _, _.
      split; [|by erewrite LoadTemplate_trait_lookup_failed].
      unfold wrapping_formats. set_solver.
    + right. eapply Hlocated. by eapply Locates_trait.
Qed.

(** X6: [LoadTemplate] returns either a template and a nil error, or no
    template and an error; the error is the one of an unsupported kind, or a
    cause wrapped with one of three messages that carry the key.  (So the
    error "no template found in definition" is never returned.) *)
Theorem LoadTemplate_outcomes cli key kd :
  (∃ tmpl, (LoadTemplate cli key kd).1 = (Some tmpl, None)) ∨
  (∃ err,
     (LoadTemplate cli key kd).1 = (None, Some err) ∧
     (err = fmt_Errorf "kind(%s) of %s not supported" [ArgCapType kd; ArgString key] ∨
      ∃ cause format,
        format ∈ wrapping_formats ∧
        err = errors_WithMessagef cause format [ArgString key])).
Proof.
  destruct (LoadTemplate_cases cli key kd)
    as [Hres|[(cause & format & Hin & Hres)|(? & ? & ? & ? & tmpl & _ & _ & Hres & _)]].
  - right. eexists. split; [exact Hres|]. by left.
  - right. eexists. split; [exact Hres|]. right. by exists cause, format.
  - left. by exists tmpl.
Qed.

(** X7: the queries [LoadTemplate] makes depend on the kind and on the
    answer to the first query only.  A trait is one query of the
    TraitDefinition; a component is one query of the ComponentDefinition,
    followed by one of the WorkloadDefinition exactly when the first answer
    is a NotFound error; any other kind makes no query.  Every query is for
    the key. *)
Theorem LoadTemplate_queries cli key kd :
  (LoadTemplate cli key kd).2 =
    match kd with
    | TypeComponentDefinition =>
        query ComponentDefinitionResource key ::
        match Get_ComponentDefinition cli key with
        | inl err =>
            if IsNotFound (Some err) then [query WorkloadDefinitionResource key] else []
        | inr _ => []
        end
    | TypeTrait => [query TraitDefinitionResource key]
    | _ => []
    end.
Proof.
  destruct kd as [| | |s]; [| |done..].
  - destruct (Get_ComponentDefinition cli key) as [err0|cd] eqn:Hcd.
    + destruct (IsNotFound (Some err0)) eqn:Hnf.
      * destruct (Get_WorkloadDefinition cli key) as [err1|wd] eqn:Hwd.
        { by erewrite LoadTemplate_fallback_failed. }
        destruct (NewTemplate_result (WorkloadDefinition.Spec_Schematic wd)
                    (WorkloadDefinition.Spec_Status wd)
                    (WorkloadDefinition.Spec_Extension wd)) as [[err Hnew]|[tmp Hnew]].
        { by erewrite LoadTemplate_workload_error. }
        by erewrite LoadTemplate_workload_template.
      * by erewrite LoadTemplate_component_lookup_failed.
    + destruct (NewTemplate_result (ComponentDefinition.Spec_Schematic cd)
                  (ComponentDefinition.Spec_Status cd)
                  (ComponentDefinition.Spec_Extension cd)) as [[err Hnew]|[tmp Hnew]].
      * by erewrite LoadTemplate_component_error.
      * by erewrite LoadTemplate_component_template.
  - destruct (Get_TraitDefinition cli key) as [err0|td] eqn:Htd.
    + by erewrite LoadTemplate_trait_lookup_failed.
    + destruct (NewTemplate_result (TraitDefinition.Spec_Schematic td)
                  (TraitDefinition.Spec_Status td)
                  (TraitDefinition.Spec_Extension td)) as [[err Hnew]|[tmp Hnew]].
      * by erewrite LoadTemplate_trait_error.
      * by erewrite LoadTemplate_trait_template.
Qed.

(** X8: a template is returned only for a located definition and with a
    nil error, and it is the template [NewTemplate] builds from the
    definition's schematic, status and extension, up to its reference and
    its category. *)
Theorem LoadTemplate_template_located cli key kd tmpl (e : option error) :
  (LoadTemplate cli key kd).1 = (Some tmpl, e) →
  e = None ∧
  ∃ schematic status extension tmp,
    Locates cli key kd schematic status extension ∧
    NewTemplate schematic status extension = (Some tmp, None) ∧
    Template.TemplateStr tmpl = Template.TemplateStr tmp ∧
    Template.Helm tmpl = Template.Helm tmp ∧
    Template.CustomStatus tmpl = Template.CustomStatus tmp ∧
    Template.Health tmpl = Template.Health tmp.
Proof.
  intros Hres.
  destruct (LoadTemplate_cases cli key kd)
    as [Hk|[(cause & format & _ & Hk)|
            (schematic & status & extension & tmp & tmpl' & Hloc & Hnew & Hk & Hf)]];
    rewrite Hk in Hres; try done.
  injection Hres as -> <-. split; [done|].
  by exists schematic, status, extension, tmp.
Qed.

(** X9: a template returned by [LoadTemplate] never has both a non-empty
    template string and a Helm reference. *)
Theorem LoadTemplate_template_or_helm cli key kd tmpl (e : option error) :
  (LoadTemplate cli key kd).1 = (Some tmpl, e) →
  Template.TemplateStr tmpl = "" ∨ Template.Helm tmpl = None.
Proof.
  intros Hres.
  destruct (LoadTemplate_cases cli key kd)
    as [Hk|[(cause & format & _ & Hk)|
            (schematic & status & extension & tmp & tmpl' & Hloc & Hnew & Hk
             & Hstr & Hhelm & _)]];
    rewrite Hk in Hres; try done.
  injection Hres as -> <-. rewrite Hstr, Hhelm.
  destruct (NewTemplate_shapes _ _ _ _ Hnew)
    as [(s & cue & _ & _ & ->)|[(s & helm & _ & _ & _ & ->)|[_ [->|[tmpStr ->]]]]];
    simpl; auto using initial_TemplateStr, initial_Helm.
Qed.

(** X10: when the located definition has a status, every template returned
    for it carries the status's custom-status rule and health rule. *)
Theorem LoadTemplate_status cli key kd schematic st extension tmpl :
  Locates cli key kd schematic (Some st) extension →
  (LoadTemplate cli key kd).1 = (Some tmpl, None) →
  Template.CustomStatus tmpl = Status.CustomStatus st ∧
  Template.Health tmpl = Status.HealthPolicy st.
Proof.
  intros Hloc Hres.
  destruct (NewTemplate_result schematic (Some st) extension)
    as [[cause Hnew]|[tmp Hnew]].
  - by rewrite (LoadTemplate_located_error _ _ _ _ _ _ _ Hloc Hnew) in Hres.
  - destruct (LoadTemplate_located_template _ _ _ _ _ _ _ Hloc Hnew)
      as (tmpl' & Hres' & _ & _ & Hcs & Hh).
    rewrite Hres' in Hres. injection Hres as ->. rewrite Hcs, Hh.
    destruct (NewTemplate_shapes _ _ _ _ Hnew)
      as [(s & cue & _ & _ & ->)|[(s & helm & _ & _ & _ & ->)|[_ [->|[tmpStr ->]]]]];
      done.
Qed.

(** X11: when the located definition has no CUE and no Helm variant and its
    extension decodes to an object whose member [template] is the string X,
    the resolution succeeds with a template whose template string is X and
    whose Helm reference is nil. *)
Theorem LoadTemplate_extension_template
    cli key kd schematic status r extension X :
  Locates cli key kd schematic status (Some r) →
  no_variant schematic →
  Unmarshal_map (RawExtension.bytes r) = inr extension →
  extension !! "template" = Some (json.String X) →
  ∃ tmpl,
    (LoadTemplate cli key kd).1 = (Some tmpl, None) ∧
    Template.TemplateStr tmpl = X ∧
    Template.Helm tmpl = None.
Proof.
  intros Hloc Hno Hdec Hkey.
  pose proof (NewTemplate_extension schematic status r Hno) as Hnew.
  rewrite Hdec in Hnew. unfold extension_template in Hnew.
  rewrite Hkey in Hnew. simpl in Hnew.
  destruct (LoadTemplate_located_template _ _ _ _ _ _ _ Hloc Hnew)
    as (tmpl & Hres & Hstr & Hhelm & _).
  exists tmpl. split; [done|]. rewrite Hstr, Hhelm. simpl.
  auto using initial_Helm.
Qed.

(** X12: the reference of a template returned for a component is the
    workload definition of the ComponentDefinition when that was found, and
    the zero workload GVK when the template comes from the
    WorkloadDefinition of the same name. *)
Theorem LoadTemplate_component_reference cli key tmpl :
  (LoadTemplate cli key TypeComponentDefinition).1 = (Some tmpl, None) →
  Template.Reference tmpl =
    match Get_ComponentDefinition cli key with
    | inr cd => ComponentDefinition.Spec_Workload_Definition cd
    | inl _ => zero
    end.
Proof.
  intros Hres.
  destruct (Get_ComponentDefinition cli key) as [err0|cd] eqn:Hcd.
  - destruct (IsNotFound (Some err0)) eqn:Hnf.
    + destruct (Get_WorkloadDefinition cli key) as [err1|wd] eqn:Hwd.
      { by erewrite LoadTemplate_fallback_failed in Hres. }
      destruct (NewTemplate_result (WorkloadDefinition.Spec_Schematic wd)
                  (WorkloadDefinition.Spec_Status wd)
                  (WorkloadDefinition.Spec_Extension wd)) as [[err Hnew]|[tmp Hnew]].
      { by erewrite LoadTemplate_workload_error in Hres. }
      erewrite LoadTemplate_workload_template in Hres by done.
      by injection Hres as <-.
    + by erewrite LoadTemplate_component_lookup_failed in Hres.
  - destruct (NewTemplate_result (ComponentDefinition.Spec_Schematic cd)
                (ComponentDefinition.Spec_Status cd)
                (ComponentDefinition.Spec_Extension cd)) as [[err Hnew]|[tmp Hnew]].
    + by erewrite LoadTemplate_component_error in Hres.
    + erewrite LoadTemplate_component_template in Hres by done.
      injection Hres as <-. simpl. by case_match.
Qed.

(** X13: for a ComponentDefinition that is found, has a CUE or a Helm
    variant and is annotated with the type "terraform", the template is
    returned with the Terraform category, also over the Helm category of a
    Helm reference, which the template keeps. *)
Theorem LoadTemplate_component_terraform cli key cd s :
  Get_ComponentDefinition cli key = inr cd →
  ComponentDefinition.Spec_Schematic cd = Some s →
  has_variant s →
  map_index (ComponentDefinition.Annotations cd) "type" = TerraformCategory →
  ∃ tmpl,
    LoadTemplate cli key TypeComponentDefinition =
      ((Some tmpl, None), [query ComponentDefinitionResource key]) ∧
    Template.CapabilityCategory tmpl = TerraformCategory ∧
    Template.Helm tmpl =
      match Schematic.CUE s with
      | Some _ => None
      | None => Schematic.HELM s
      end.
Proof.
  intros Hget Hs Hvar Hann.
  assert (∃ tmp,
            NewTemplate (ComponentDefinition.Spec_Schematic cd)
              (ComponentDefinition.Spec_Status cd)
              (ComponentDefinition.Spec_Extension cd) = (Some tmp, None) ∧
            Template.Helm tmp =
              match Schematic.CUE s with
              | Some _ => None
              | None => Schematic.HELM s
              end) as (tmp & Hnew & Hhelm).
  { rewrite Hs. destruct (Schematic.CUE s) as [cue|] eqn:Hcue.
    - eexists. split; [exact (NewTemplate_CUE _ _ _ _ Hcue)|]. simpl. apply initial_Helm.
    - destruct Hvar as [[? Hc]|[helm Hh]]; [congruence|].
      eexists. split; [exact (NewTemplate_HELM _ _ _ _ Hcue Hh)|]. by rewrite Hh. }
  rewrite (LoadTemplate_component_template _ _ _ _ Hget Hnew).
  eexists. split; [reflexivity|]. simpl. rewrite Hann. simpl. done.
Qed.

(** X14: for a TraitDefinition that is found, has a CUE variant and is
    annotated with the type "terraform", the template is returned with the
    CUE body, the Terraform category and the zero reference. *)
Theorem LoadTemplate_trait_terraform cli key td s cue :
  Get_TraitDefinition cli key = inr td →
  TraitDefinition.Spec_Schematic td = Some s →
  Schematic.CUE s = Some cue →
  map_index (TraitDefinition.Annotations td) "type" = TerraformCategory →
  ∃ tmpl,
    LoadTemplate cli key TypeTrait =
      ((Some tmpl, None), [query TraitDefinitionResource key]) ∧
    Template.TemplateStr tmpl = CUE.Template cue ∧
    Template.CapabilityCategory tmpl = TerraformCategory ∧
    Template.Reference tmpl = zero.
Proof.
  intros Hget Hs Hcue Hann.
  pose proof (NewTemplate_CUE s cue (TraitDefinition.Spec_Status td)
                (TraitDefinition.Spec_Extension td) Hcue) as Hnew.
  rewrite <- Hs in Hnew.
  rewrite (LoadTemplate_trait_template _ _ _ _ Hget Hnew).
  eexists. split; [reflexivity|]. simpl.
  unfold trait_category. rewrite Hann. simpl.
  auto using initial_Reference.
Qed.

(** X15: when the lookup of the ComponentDefinition fails with an error
    that is not NotFound, there is no fallback: the WorkloadDefinition is
    not queried, and the error returned is that cause, wrapped with the
    message that names the ComponentDefinition. *)
Theorem LoadTemplate_component_no_fallback cli key err :
  Get_ComponentDefinition cli key = inl err →
  IsNotFound (Some err) = false →
  LoadTemplate cli key TypeComponentDefinition =
    ((None, Some (errors_WithMessagef err
                    "LoadTemplate from ComponentDefinition [%s] " [ArgString key])),
     [query ComponentDefinitionResource key]).
Proof. exact (LoadTemplate_component_lookup_failed cli key err). Qed.

(** X16: a trait has no fallback at all: when the lookup of the
    TraitDefinition fails, be it with NotFound, the store is not queried
    again, whatever else it holds under the key, and the error returned is
    that cause, wrapped with the message "LoadTemplate [key] ". *)
Theorem LoadTemplate_trait_no_fallback cli key err :
  Get_TraitDefinition cli key = inl err →
  LoadTemplate cli key TypeTrait =
    ((None, Some (errors_WithMessagef err "LoadTemplate [%s] " [ArgString key])),
     [query TraitDefinitionResource key]).
Proof. exact (LoadTemplate_trait_lookup_failed cli key err). Qed.

(** X17: resolving a trait reads the TraitDefinition only: two stores
    that answer alike for the TraitDefinition of the key give the same
    result and the same queries, whatever ComponentDefinitions and
    WorkloadDefinitions they hold. *)
Theorem LoadTemplate_trait_reads_traits_only cli cli' key :
  Get_TraitDefinition cli key = Get_TraitDefinition cli' key →
  LoadTemplate cli key TypeTrait = LoadTemplate cli' key TypeTrait.
Proof.
  intros Heq.
  destruct (Get_TraitDefinition cli key) as [err|td] eqn:Htd; symmetry in Heq.
  - by rewrite !(LoadTemplate_trait_lookup_failed _ key err).
  - destruct (NewTemplate_result (TraitDefinition.Spec_Schematic td)
                (TraitDefinition.Spec_Status td)
                (TraitDefinition.Spec_Extension td)) as [[err Hnew]|[tmp Hnew]].
    + by rewrite !(LoadTemplate_trait_error _ key td err).
    + by rewrite !(LoadTemplate_trait_template _ key td tmp).
Qed.

(** X18: when the ComponentDefinition is found, or its lookup fails with an
    error that is not NotFound, the WorkloadDefinitions play no part: two
    stores that answer alike for the ComponentDefinition of the key give the
    same result and the same queries. *)
Theorem LoadTemplate_component_found_ignores_workloads cli cli' key :
  Get_ComponentDefinition cli key = Get_ComponentDefinition cli' key →
  match Get_ComponentDefinition cli key with
  | inl err => IsNotFound (Some err) = false
  | inr _ => True
  end →
  LoadTemplate cli key TypeComponentDefinition =
  LoadTemplate cli' key TypeComponentDefinition.
Proof.
  intros Heq Hnf.
  destruct (Get_ComponentDefinition cli key) as [err|cd] eqn:Hcd; symmetry in Heq.
  - by rewrite !(LoadTemplate_component_lookup_failed _ key err).
  - destruct (NewTemplate_result (ComponentDefinition.Spec_Schematic cd)
                (ComponentDefinition.Spec_Status cd)
                (ComponentDefinition.Spec_Extension cd)) as [[err Hnew]|[tmp Hnew]].
    + by rewrite !(LoadTemplate_component_error _ key cd err).
    + by rewrite !(LoadTemplate_component_template _ key cd tmp).
Qed.

(** X22: for a component, a Helm reference without a CUE template gives a
    template with that reference and the Helm category, whether the
    definition located is the ComponentDefinition, not annotated with the
    type "terraform", or the WorkloadDefinition of the same name, whatever
    its annotations. *)
Theorem LoadTemplate_component_keeps_Helm_category
    cli key s helm status extension :
  Locates cli key TypeComponentDefinition (Some s) status extension →
  Schematic.CUE s = None →
  Schematic.HELM s = Some helm →
  (∀ cd, Get_ComponentDefinition cli key = inr cd →
         map_index (ComponentDefinition.Annotations cd) "type" ≠ TerraformCategory) →
  ∃ tmpl,
    (LoadTemplate cli key TypeComponentDefinition).1 = (Some tmpl, None) ∧
    Template.Helm tmpl = Some helm ∧
    Template.CapabilityCategory tmpl = HelmCategory.
Proof.
  intros Hloc Hcue Hhelm Hann.
  pose proof (NewTemplate_HELM s helm status extension Hcue Hhelm) as Hnew.
  inversion Hloc; subst;
    match goal with Hs : _ = Some s |- _ => rewrite <- Hs in Hnew end.
  - match goal with
    | Hcd : Get_ComponentDefinition _ _ = inr ?cd |- _ =>
        rewrite (LoadTemplate_component_template _ _ _ _ Hcd Hnew);
        specialize (Hann cd Hcd)
    end.
    simpl. apply String.eqb_neq in Hann. rewrite Hann. by eexists.
  - match goal with
    | Hcd : Get_ComponentDefinition _ _ = inl _,
      Hnf : IsNotFound _ = true, Hwd : Get_WorkloadDefinition _ _ = inr _ |- _ =>
        rewrite (LoadTemplate_workload_template _ _ _ _ _ Hcd Hnf Hwd Hnew)
    end.
    by eexists.
Qed.

End LoadTemplate_more.

(** * Further properties of [ConvertTemplateJSON2Object] *)

Section ConvertTemplateJSON2Object_more.
Context `{Declared} `{!Unmarshal}.

Implicit Types (schematic : option Schematic.t) (t : Capability.t).

(** X19: when the schematic has no CUE and no Helm variant and the
    extension does not decode as a JSON object, the capability returned
    next to the error "parse cue template" has its name set and every other
    field zero: nothing of the extension is unmarshalled onto it.  This
    includes an extension whose byte slice is nil. *)
Theorem ConvertTemplateJSON2Object_extraction_failed
    capabilityName schematic r err :
  no_variant schematic →
  Unmarshal_map (RawExtension.bytes r) = inl err →
  ConvertTemplateJSON2Object capabilityName (Some r) schematic =
    Some (Capability.set_Name zero capabilityName,
          Some (errors_Wrapf err "parse cue template" [])).
Proof.
  intros Hno Hdec. rewrite ConvertTemplateJSON2Object_unfold. simpl.
  by rewrite (NewTemplate_extension _ _ _ Hno), Hdec.
Qed.

(** X20: with a nil extension [ConvertTemplateJSON2Object] cannot fail: it
    returns the capability with its name set, the CUE template of the
    schematic as its CUE template (the empty string when the schematic has
    none), and its other fields zero. *)
Theorem ConvertTemplateJSON2Object_nil_extension capabilityName schematic :
  ∃ t,
    ConvertTemplateJSON2Object capabilityName None schematic = Some (t, None) ∧
    Capability.Name t = capabilityName ∧
    Capability.CueTemplate t =
      match schematic ≫= Schematic.CUE with
      | Some cue => CUE.Template cue
      | None => ""
      end ∧
    Capability.Fields t = zero.
Proof.
  rewrite ConvertTemplateJSON2Object_unfold. simpl.
  destruct (variant_cases schematic)
    as [(s & cue & -> & Hcue)|[(s & helm & -> & Hcue & Hhelm)|Hno]].
  - rewrite (NewTemplate_CUE _ _ _ _ Hcue). simpl. rewrite Hcue.
    destruct (String.eqb (CUE.Template cue) "") eqn:Heq; simpl;
      eexists; (split; [reflexivity|]); [|done].
    apply String.eqb_eq in Heq. by rewrite Heq.
  - rewrite (NewTemplate_HELM _ _ _ _ Hcue Hhelm). simpl. rewrite Hcue.
    by eexists.
  - rewrite (NewTemplate_plain _ _ Hno). simpl.
    eexists. split; [reflexivity|].
    destruct schematic as [s|]; [|done]. destruct Hno as [Hcue _].
    simpl. by rewrite Hcue.
Qed.

(** X21: with a CUE or a Helm variant the extraction cannot fail, so the
    only error [ConvertTemplateJSON2Object] can return is the one of the
    full-descriptor unmarshal, "parse extension fail". *)
Theorem ConvertTemplateJSON2Object_variant_errors
    capabilityName (in_ : option RawExtension.t) (s : Schematic.t) :
  has_variant s →
  ∃ t e,
    ConvertTemplateJSON2Object capabilityName in_ (Some s) = Some (t, e) ∧
    (e = None ∨ ∃ err, e = Some (errors_Wrapf err "parse extension fail" [])).
Proof.
  intros Hvar.
  assert (∃ tmp, NewTemplate (Some s) None in_ = (Some tmp, None)) as [tmp Hnew].
  { destruct (Schematic.CUE s) as [cue|] eqn:Hcue.
    - eexists. exact (NewTemplate_CUE _ _ _ _ Hcue).
    - destruct Hvar as [[? Hc]|[helm Hh]]; [congruence|].
      eexists. exact (NewTemplate_HELM _ _ _ _ Hcue Hh). }
  rewrite ConvertTemplateJSON2Object_unfold. cbv zeta. rewrite Hnew.
  destruct (descriptor_unmarshal in_ _) as [t [err|]]; simpl.
  - eexists _, _. split; [reflexivity|]. right. by exists err.
  - eexists _, _. split; [reflexivity|]. by left.
Qed.

(** X23: [ConvertTemplateJSON2Object] never reads through a nil template:
    it always returns a capability, with a nil error, or with a cause
    wrapped as "parse cue template", or with a cause wrapped as "parse
    extension fail". *)
Theorem ConvertTemplateJSON2Object_outcomes
    capabilityName (in_ : option RawExtension.t) schematic :
  ∃ t e,
    ConvertTemplateJSON2Object capabilityName in_ schematic = Some (t, e) ∧
    (e = None ∨
     ∃ cause format,
       e = Some (errors_Wrapf cause format []) ∧
       format ∈ ["parse cue template"; "parse extension fail"]).
Proof.
  rewrite ConvertTemplateJSON2Object_unfold. cbv zeta.
  destruct (NewTemplate_result schematic None in_) as [[err ->]|[tmp ->]].
  - eexists _, _. split; [reflexivity|]. right. eexists _, _.
    split; [reflexivity|]. set_solver.
  - destruct (descriptor_unmarshal in_ _) as [t [err|]]; simpl.
    + eexists _, _. split; [reflexivity|]. right. eexists _, _.
      split; [reflexivity|]. set_solver.
    + eexists _, _. split; [reflexivity|]. by left.
Qed.

End ConvertTemplateJSON2Object_more.

(** * Instances of the further properties *)

Section instances.
Import example fixtures.
#[local] Existing Instance declared.
#[local] Existing Instance unmarshal.

(** Instance of X1: a Helm reference next to an extension with a template. *)
Lemma NewTemplate_template_or_helm_witness :
  ∃ tmp,
    NewTemplate (Some chart_only) None (Some patch_extension) = (Some tmp, None) ∧
    Template.Helm tmp = Some chart ∧
    (Template.TemplateStr tmp = "" ∨ Template.Helm tmp = None).
Proof.
  eexists. split; [reflexivity|]. split; [reflexivity|].
  apply (NewTemplate_template_or_helm (Some chart_only) None (Some patch_extension)).
  reflexivity.
Defined.

(** Instance of X2: the same template has the zero reference and the Helm
    category. *)
Lemma NewTemplate_reference_and_category_witness :
  ∃ tmp,
    NewTemplate (Some chart_only) None (Some patch_extension) = (Some tmp, None) ∧
    Template.Reference tmp = zero ∧
    Template.CapabilityCategory tmp = HelmCategory.
Proof.
  eexists. split; [reflexivity|].
  apply (NewTemplate_reference_and_category
           (Some chart_only) None (Some patch_extension)).
  reflexivity.
Defined.

(** Instance of X3: the extension of the trait [scaler]. *)
Lemma NewTemplate_extension_template_witness :
  Unmarshal_map (RawExtension.bytes patch_extension) =
    inr {[ "template" := json.String "patch: {}" ]} ∧
  ∃ tmp,
    NewTemplate None None (Some patch_extension) = (Some tmp, None) ∧
    Template.TemplateStr tmp = "patch: {}" ∧
    Template.Helm tmp = None ∧
    Template.CapabilityCategory tmp = PlainCategory.
Proof.
  split; [reflexivity|].
  apply (NewTemplate_extension_template None None patch_extension
           {[ "template" := json.String "patch: {}" ]} "patch: {}");
    [exact I|reflexivity..].
Defined.

(** Instance of X4: an extension whose member [template] is a number. *)
Lemma NewTemplate_extension_without_template_witness :
  Unmarshal_map (RawExtension.bytes numeric_template) =
    inr {[ "template" := json.Number "42" ]} ∧
  ∃ tmp,
    NewTemplate None None (Some numeric_template) = (Some tmp, None) ∧
    Template.TemplateStr tmp = "" ∧
    Template.Helm tmp = None.
Proof.
  split; [reflexivity|].
  apply (NewTemplate_extension_without_template None None numeric_template
           {[ "template" := json.Number "42" ]});
    [exact I|reflexivity|].
  intros X HX. discriminate HX.
Defined.

(** Instance of X5: a CUE variant with an empty body, with and without an
    extension that has a template. *)
Lemma NewTemplate_variant_ignores_extension_witness :
  NewTemplate (Some (cue_only "")) None (Some patch_extension) =
  NewTemplate (Some (cue_only "")) None None.
Proof.
  apply (NewTemplate_variant_ignores_extension unmarshal unmarshal (cue_only "")).
  left. eexists. reflexivity.
Defined.

(** Instance of X8 and of X11: the trait [scaler]. *)
Lemma LoadTemplate_template_located_witness :
  ∃ tmpl,
    (LoadTemplate store "scaler" TypeTrait).1 = (Some tmpl, None) ∧
    ∃ schematic status extension tmp,
      Locates store "scaler" TypeTrait schematic status extension ∧
      NewTemplate schematic status extension = (Some tmp, None) ∧
      Template.TemplateStr tmpl = Template.TemplateStr tmp ∧
      Template.Helm tmpl = Template.Helm tmp ∧
      Template.CustomStatus tmpl = Template.CustomStatus tmp ∧
      Template.Health tmpl = Template.Health tmp.
Proof.
  eexists. split; [reflexivity|].
  eapply proj2.
  apply (LoadTemplate_template_located store "scaler" TypeTrait _ None).
  reflexivity.
Defined.

Lemma LoadTemplate_extension_template_witness :
  Locates store "scaler" TypeTrait None None (Some patch_extension) ∧
  ∃ tmpl,
    (LoadTemplate store "scaler" TypeTrait).1 = (Some tmpl, None) ∧
    Template.TemplateStr tmpl = "patch: {}" ∧
    Template.Helm tmpl = None.
Proof.
  assert (Locates store "scaler" TypeTrait None None (Some patch_extension)) as Hloc.
  { apply (Locates_trait store "scaler" scaler). reflexivity. }
  split; [exact Hloc|].
  apply (LoadTemplate_extension_template store "scaler" TypeTrait None None
           patch_extension {[ "template" := json.String "patch: {}" ]} "patch: {}"
           Hloc I); reflexivity.
Defined.

(** Instance of X9: the ComponentDefinition [chart], whose annotation is
    not "terraform". *)
Lemma LoadTemplate_template_or_helm_witness :
  ∃ tmpl,
    (LoadTemplate store "chart" TypeComponentDefinition).1 = (Some tmpl, None) ∧
    Template.Helm tmpl = Some chart ∧
    (Template.TemplateStr tmpl = "" ∨ Template.Helm tmpl = None).
Proof.
  eexists. split; [reflexivity|]. split; [reflexivity|].
  apply (LoadTemplate_template_or_helm store "chart" TypeComponentDefinition _ None).
  reflexivity.
Defined.

(** Instance of X22: the same ComponentDefinition. *)
Lemma LoadTemplate_component_keeps_Helm_category_witness :
  map_index (ComponentDefinition.Annotations plain_chart) "type" = "helm-release" ∧
  ∃ tmpl,
    (LoadTemplate store "chart" TypeComponentDefinition).1 = (Some tmpl, None) ∧
    Template.Helm tmpl = Some chart ∧
    Template.CapabilityCategory tmpl = HelmCategory.
Proof.
  split; [reflexivity|].
  apply (LoadTemplate_component_keeps_Helm_category store "chart" chart_only chart
           (ComponentDefinition.Spec_Status plain_chart)
           (ComponentDefinition.Spec_Extension plain_chart)).
  - apply (Locates_component store "chart" plain_chart). reflexivity.
  - reflexivity.
  - reflexivity.
  - intros cd Hcd. injection Hcd as <-. intros Hann. discriminate Hann.
Defined.

(** Instance of X10 and of X14: the trait [tf-trait]. *)
Lemma LoadTemplate_status_witness :
  ∃ tmpl,
    (LoadTemplate store "tf-trait" TypeTrait).1 = (Some tmpl, None) ∧
    Template.CustomStatus tmpl = "message: scaled" ∧
    Template.Health tmpl = "isHealth: true".
Proof.
  eexists. split; [reflexivity|].
  apply (LoadTemplate_status store "tf-trait" TypeTrait
           (TraitDefinition.Spec_Schematic terraform_trait)
           {| Status.CustomStatus := "message: scaled";
              Status.HealthPolicy := "isHealth: true" |}
           (TraitDefinition.Spec_Extension terraform_trait)).
  - apply (Locates_trait store "tf-trait" terraform_trait). reflexivity.
  - reflexivity.
Defined.

Lemma LoadTemplate_trait_terraform_witness :
  ∃ tmpl,
    LoadTemplate store "tf-trait" TypeTrait =
      ((Some tmpl, None), [query TraitDefinitionResource "tf-trait"]) ∧
    Template.TemplateStr tmpl = "patch: {}" ∧
    Template.CapabilityCategory tmpl = TerraformCategory ∧
    Template.Reference tmpl = zero.
Proof.
  apply (LoadTemplate_trait_terraform store "tf-trait" terraform_trait
           (cue_only "patch: {}") {| CUE.Template := "patch: {}" |});
    reflexivity.
Defined.

(** Instance of X12: the component [legacy] of the first store comes from
    its WorkloadDefinition, the component [chart] from its
    ComponentDefinition. *)
Lemma LoadTemplate_component_reference_witness :
  (∃ tmpl,
     (LoadTemplate cli "legacy" TypeComponentDefinition).1 = (Some tmpl, None) ∧
     Template.Reference tmpl = zero) ∧
  (∃ tmpl,
     (LoadTemplate store "chart" TypeComponentDefinition).1 = (Some tmpl, None) ∧
     Template.Reference tmpl = deployment).
Proof.
  split.
  - eexists. split; [reflexivity|].
    apply (LoadTemplate_component_reference cli "legacy"). reflexivity.
  - eexists. split; [reflexivity|].
    apply (LoadTemplate_component_reference store "chart"). reflexivity.
Defined.

(** Instance of X13: the ComponentDefinition [tf-chart]. *)
Lemma LoadTemplate_component_terraform_witness :
  ∃ tmpl,
    LoadTemplate store "tf-chart" TypeComponentDefinition =
      ((Some tmpl, None), [query ComponentDefinitionResource "tf-chart"]) ∧
    Template.CapabilityCategory tmpl = TerraformCategory ∧
    Template.Helm tmpl = Some chart.
Proof.
  apply (LoadTemplate_component_terraform store "tf-chart" terraform_chart chart_only);
    try reflexivity.
  right. eexists. reflexivity.
Defined.

(** Instance of X15: a store whose queries time out. *)
Lemma LoadTemplate_component_no_fallback_witness :
  IsNotFound (Some deadline) = false ∧
  LoadTemplate unreachable "worker" TypeComponentDefinition =
    ((None, Some (errors_WithMessagef deadline
                    "LoadTemplate from ComponentDefinition [%s] " [ArgString "worker"])),
     [query ComponentDefinitionResource "worker"]).
Proof.
  split; [reflexivity|].
  apply (LoadTemplate_component_no_fallback unreachable "worker" deadline);
    reflexivity.
Defined.

(** Instance of X16: no TraitDefinition is named [worker] in the first
    store, which has a ComponentDefinition of that name. *)
Lemma LoadTemplate_trait_no_fallback_witness :
  Get_ComponentDefinition cli "worker" = inr worker ∧
  LoadTemplate cli "worker" TypeTrait =
    ((None, Some (errors_WithMessagef (not_found "worker")
                    "LoadTemplate [%s] " [ArgString "worker"])),
     [query TraitDefinitionResource "worker"]).
Proof.
  split; [reflexivity|].
  apply (LoadTemplate_trait_no_fallback cli "worker" (not_found "worker")).
  reflexivity.
Defined.

(** Instance of X17: the trait [scaler] is the same in both stores. *)
Lemma LoadTemplate_trait_reads_traits_only_witness :
  LoadTemplate cli "scaler" TypeTrait = LoadTemplate store "scaler" TypeTrait.
Proof.
  apply (LoadTemplate_trait_reads_traits_only cli store "scaler"). reflexivity.
Defined.

(** Instance of X18: a store with the ComponentDefinition [worker] and no
    WorkloadDefinition, against the first store. *)
Lemma LoadTemplate_component_found_ignores_workloads_witness :
  LoadTemplate cli "worker" TypeComponentDefinition =
  LoadTemplate (reader {[ "worker" := worker ]} ∅ ∅) "worker" TypeComponentDefinition.
Proof.
  apply (LoadTemplate_component_found_ignores_workloads
           cli (reader {[ "worker" := worker ]} ∅ ∅) "worker").
  - reflexivity.
  - exact I.
Defined.

(** Instance of X19: an extension whose byte slice is nil. *)
Lemma ConvertTemplateJSON2Object_extraction_failed_witness :
  Unmarshal_map (RawExtension.bytes nil_raw) = inl (SyntaxError "invalid JSON input") ∧
  ConvertTemplateJSON2Object "scaler" (Some nil_raw) None =
    Some (Capability.set_Name zero "scaler",
          Some (errors_Wrapf (SyntaxError "invalid JSON input") "parse cue template" [])).
Proof.
  split; [reflexivity|].
  apply (ConvertTemplateJSON2Object_extraction_failed "scaler" None nil_raw
           (SyntaxError "invalid JSON input")); [exact I|reflexivity].
Defined.

(** Instance of X21: a CUE template next to an extension that is not JSON. *)
Lemma ConvertTemplateJSON2Object_variant_errors_witness :
  ∃ t e,
    ConvertTemplateJSON2Object "worker" (Some broken_extension)
      (Some (cue_only "output: {}")) = Some (t, e) ∧
    (e = None ∨ ∃ err, e = Some (errors_Wrapf err "parse extension fail" [])).
Proof.
  apply (ConvertTemplateJSON2Object_variant_errors "worker" (Some broken_extension)
           (cue_only "output: {}")).
  left. eexists. reflexivity.
Defined.

End instances.
